(** * Storage deal client (protocol/storage/client.go)

    A shallow embedding of the client half of the storage-deal protocol:
    the proposal builder, the duplicate resolver, the payment and protocol
    exchange, the deal store with its persistent mirror, and deal queries.

    Go values are modelled as follows.
    - [uint64] is a [Z] in [0, 2^64) with the wrap-around written out;
      [int64] conversion is the two's-complement reinterpretation.
    - [*big.Int], [*types.AttoFIL] and [*types.BlockHeight] are [Z].
    - [error] is an inductive type that keeps the structure built by
      [errors.New], [fmt.Errorf] and [errors.Wrap].
    - [map[cid.Cid]*deal.Deal] is a [gmap Cid Deal].
    - The two collaborator interfaces are records of functions; every call
      made through them is appended to a log carried next to the client. *)

From Stdlib Require Import ZArith.
From stdpp Require Import base option gmap strings list.

Open Scope string_scope.
Open Scope list_scope.
Open Scope Z_scope.

(** ** Fixed-width integers *)

Definition uint64_modulus : Z := 2 ^ 64.

(** [a * b] on two [uint64] operands. *)
Definition uint64_mul (a b : Z) : Z := (a * b) mod uint64_modulus.

(** [a + b] on two [uint64] operands. *)
Definition uint64_add (a b : Z) : Z := (a + b) mod uint64_modulus.

(** The conversion [int64(x)] of a [uint64] value. *)
Definition int64_of_uint64 (x : Z) : Z :=
  if x <? 2 ^ 63 then x else x - uint64_modulus.

(** [big.NewInt(x)] is exact. *)
Definition NewInt (x : Z) : Z := x.

(** ** Errors *)

Inductive error : Type :=
| ErrNotSupported                      (* the sentinel multistream.ErrNotSupported *)
| New (msg : string)                   (* errors.New, errors.Errorf, fmt.Errorf *)
| Wrap (cause : error) (msg : string). (* errors.Wrap(cause, msg) *)

(** The text returned by the [Error()] method. *)
Fixpoint Error (e : error) : string :=
  match e with
  | ErrNotSupported => "protocol not supported"
  | New msg => msg
  | Wrap cause msg => msg +:+ ": " +:+ Error cause
  end.

Inductive result (A : Type) : Type :=
| Ok (a : A)
| Err (e : error).
Arguments Ok {A} a.
Arguments Err {A} e.

(** ** Identifiers *)

(** go-cid: [type Cid struct{ str string }], a comparable value usable as a
    map key. *)
Record Cid : Type := MkCid { str : string }.

#[global] Instance Cid_eq_dec : EqDecision Cid.
Proof. solve_decision. Defined.

#[global] Instance Cid_countable : Countable Cid.
Proof. by apply (inj_countable' str MkCid); intros []. Defined.

Definition Address : Type := string.
Definition PeerID : Type := string.
Definition ProtocolID : Type := string.
Definition bytes : Type := string.

(** [address.Address.Empty]. *)
Definition Empty (a : Address) : bool := bool_decide (a = "").

(** ** The deal data model (package deal) *)

Definition PaymentVoucher : Type := string.

Record PaymentInfo : Type := MkPaymentInfo {
  Channel : Z;
  ChannelMsgCid : string;
  Vouchers : list PaymentVoucher
}.

Record Proposal : Type := MkProposal {
  PieceRef : Cid;
  Size : Z;
  TotalPrice : Z;
  Duration : Z;
  MinerAddress : Address;
  Payment : PaymentInfo;
  LastDuplicate : string
}.

(** Modelled from the spec: the response states; the declaration of
    [deal.State] is not part of the sources at hand.  The spec lists
    Accepted, Rejected, Failed and Unknown; every further value of the
    underlying integer type is [OtherState]. *)
Inductive State : Type :=
| Unknown
| Rejected
| Accepted
| Failed
| OtherState (code : nat).

Record Response : Type := MkResponse {
  RState : State;
  Message : string;
  ProposalCid : Cid
}.

Record Deal : Type := MkDeal {
  Miner : Address;
  DProposal : Proposal;
  DResponse : Response
}.

Record QueryRequest : Type := MkQueryRequest { QCid : Cid }.

(** The [request interface{}] argument of [MakeProtocolRequest]. *)
Inductive Request : Type :=
| ReqProposal (p : Proposal)
| ReqQuery (q : QueryRequest).

(** Zero values of the Go structs. *)
Definition zeroPayment : PaymentInfo := MkPaymentInfo 0 "" [].

Definition setLastDuplicate (ld : string) (p : Proposal) : Proposal :=
  MkProposal (PieceRef p) (Size p) (TotalPrice p) (Duration p)
             (MinerAddress p) (Payment p) ld.

Definition setPayment (pay : PaymentInfo) (p : Proposal) : Proposal :=
  MkProposal (PieceRef p) (Size p) (TotalPrice p) (Duration p)
             (MinerAddress p) pay (LastDuplicate p).

(** ** Constants of client.go *)

Definition ErrDuplicateDeal : error :=
  New "proposal is a duplicate of existing deal; if you would like to create a duplicate, add the --allow-duplicates flag".

Definition VoucherInterval : Z := 1000.
Definition ChannelExpiryBuffer : Z := 2000.
Definition CreateChannelGasPrice : Z := 0.
Definition CreateChannelGasLimit : Z := 300.

(** ** Collaborators *)

Record Ask : Type := MkAsk { Price : Z; AskID : Z }.

Record CreatePaymentsParams : Type := MkCreatePaymentsParams {
  From : Address;
  To : Address;
  Value : Z;
  CPDuration : Z;
  PaymentInterval : Z;
  ChannelExpiry : Z;
  GasPrice : Z;
  GasLimit : Z
}.

Record CreatePaymentsReturn : Type := MkCreatePaymentsReturn {
  CPChannel : Z;
  CPChannelMsgCid : Cid;
  CPVouchers : list PaymentVoucher
}.

(** The [interface{}] returned by [ConfigGet]: either an address or a value
    of some other dynamic type. *)
Inductive ConfigValue : Type :=
| CfgAddress (a : Address)
| CfgOther (v : string).

(** Modelled from the spec: the enumeration of stored deals, "delivered as
    a producer/termination pair".  [DealsLs] itself lives in package
    porcelain, outside the sources at hand.  The deals channel delivers
    [produced] in order; after the last one the termination channel
    delivers [termination] (an error, or nil). *)
Record DealEnumeration : Type := MkDealEnumeration {
  produced : list Deal;
  termination : option error
}.

(** [type clientNode interface]. *)
Record clientNode : Type := MkClientNode {
  GetFileSize : Cid -> result Z;
  MakeProtocolRequest : ProtocolID -> PeerID -> Request -> result Response
}.

(** [type clientPorcelainAPI interface]. *)
Record clientPorcelainAPI : Type := MkClientPorcelainAPI {
  ConfigGet : string -> result ConfigValue;
  ChainBlockHeight : result Z;
  CreatePayments : CreatePaymentsParams -> result CreatePaymentsReturn;
  MinerGetAsk : Address -> Z -> result Ask;
  MinerGetOwnerAddress : Address -> result Address;
  MinerGetPeerID : Address -> result PeerID;
  DealsLs : DealEnumeration
}.

(** [repo.Datastore]: a key/value store whose [Put] may fail.  [putFault]
    tells for which keys the write fails and with which error; a failed
    write leaves the contents as they were. *)
Record Datastore : Type := MkDatastore {
  kv : gmap string bytes;
  putFault : string -> option error
}.

Definition Put (ds : Datastore) (key : string) (value : bytes)
  : option error * Datastore :=
  match putFault ds key with
  | Some e => (Some e, ds)
  | None => (None, MkDatastore (<[key := value]> (kv ds)) (putFault ds))
  end.

(** Library functions the client relies on: the content hash of a proposal
    ([convert.ToCid]), the textual form of an identity ([Cid.String]), the
    serializer ([cbor.DumpObject]), [deal.State.String], and the constants
    declared elsewhere in the package: [deal.ClientDatastorePrefix] and the
    two protocol identifiers. *)
Record Library : Type := MkLibrary {
  ToCid : Proposal -> result Cid;
  CidString : Cid -> string;
  DumpObject : Deal -> result bytes;
  StateString : State -> string;
  ClientDatastorePrefix : string;
  makeDealProtocol : ProtocolID;
  queryDealProtocol : ProtocolID
}.

(** [datastore.KeyWithNamespaces]: the namespaces joined under a leading
    slash. *)
Definition KeyWithNamespaces (ns : list string) : string :=
  "/" +:+ String.concat "/" ns.

(** [AttoFIL.MulBigInt]: the product as a big integer. *)
Definition MulBigInt (z x : Z) : Z := z * x.

(** [BlockHeight.Add]. *)
Definition BlockHeightAdd (z y : Z) : Z := z + y.

(** ** The client and the log of collaborator calls *)

Record Client : Type := MkClient {
  deals : gmap Cid Deal;
  dealsDs : Datastore;
  node : clientNode;
  api : clientPorcelainAPI
}.

Inductive Call : Type :=
| CallGetFileSize (c : Cid)
| CallMakeProtocolRequest (proto : ProtocolID) (peer : PeerID) (req : Request)
| CallConfigGet (path : string)
| CallChainBlockHeight
| CallCreatePayments (params : CreatePaymentsParams)
| CallMinerGetAsk (miner : Address) (askID : Z)
| CallMinerGetOwnerAddress (miner : Address)
| CallMinerGetPeerID (miner : Address)
| CallDealsLs
| CallPut (key : string) (value : bytes).

Record World : Type := MkWorld {
  smc : Client;
  calls : list Call
}.

(** What a run of client code produces: a value, a Go error, or nothing
    because the loop bound of the model was reached. *)
Inductive outcome (A : Type) : Type :=
| Return (a : A)
| Fail (e : error)
| OutOfFuel.
Arguments Return {A} a.
Arguments Fail {A} e.
Arguments OutOfFuel {A}.

Definition M (A : Type) : Type := World -> outcome A * World.

#[global] Instance M_ret : MRet M := fun A a w => (Return a, w).

#[global] Instance M_bind : MBind M := fun A B f m w =>
  match m w with
  | (Return a, w') => f a w'
  | (Fail e, w') => (Fail e, w')
  | (OutOfFuel, w') => (OutOfFuel, w')
  end.

Definition fail {A} (e : error) : M A := fun w => (Fail e, w).

Definition diverge {A} : M A := fun w => (OutOfFuel, w).

Definition gets {A} (f : Client -> A) : M A := fun w => (Return (f (smc w)), w).

Definition setDeals (ds : gmap Cid Deal) : M unit := fun w =>
  (Return tt,
   MkWorld (MkClient ds (dealsDs (smc w)) (node (smc w)) (api (smc w))) (calls w)).

Definition setDealsDs (d : Datastore) : M unit := fun w =>
  (Return tt,
   MkWorld (MkClient (deals (smc w)) d (node (smc w)) (api (smc w))) (calls w)).

Definition logCall (c : Call) : M unit := fun w =>
  (Return tt, MkWorld (smc w) (calls w ++ [c])).

(** Turn the [(value, error)] pair of a Go call into the monad. *)
Definition lift {A} (r : result A) : M A :=
  match r with
  | Ok a => mret a
  | Err e => fail e
  end.

(** [if err != nil { return nil, errors.Wrap(err, msg) }]. *)
Definition wrapped {A} (msg : string) (m : M A) : M A := fun w =>
  match m w with
  | (Fail e, w') => (Fail (Wrap e msg), w')
  | r => r
  end.

(** A call through [smc.node] or [smc.api]: logged, then answered. *)
Definition invoke {A} (c : Call) (f : Client -> result A) : M A :=
  logCall c ;; r ← gets f; lift r.

(** [if err != nil { return err }] for a call that yields only an error. *)
Definition check (err : option error) : M unit :=
  match err with
  | Some e => fail e
  | None => mret tt
  end.

(** [smc.dealsDs.Put(key, datum)]. *)
Definition dsPut (key : string) (datum : bytes) : M (option error) := fun w =>
  let '(err, ds') := Put (dealsDs (smc w)) key datum in
  (Return err,
   MkWorld (MkClient (deals (smc w)) ds' (node (smc w)) (api (smc w)))
           (calls w ++ [CallPut key datum])).

Section ClientCode.

Variable L : Library.

(** ** Building the proposal (ProposeDeal, lines 100-139) *)

Record Draft : Type := MkDraft {
  dSize : Z;
  dPrice : Z;
  dChainHeight : Z;
  dFromAddress : Address;
  dMinerOwner : Address;
  dProposal : Proposal
}.

(** [price.MulBigInt(big.NewInt(int64(size * duration)))]. *)
Definition totalPrice (price size duration : Z) : Z :=
  MulBigInt price (NewInt (int64_of_uint64 (uint64_mul size duration))).

Definition buildProposal (miner : Address) (data : Cid) (askID duration : Z)
  : M Draft :=
  size ← wrapped "failed to determine the size of the data"
         (invoke (CallGetFileSize data) (fun c => GetFileSize (node c) data));
  ask ← wrapped "failed to get ask price"
         (invoke (CallMinerGetAsk miner askID)
                 (fun c => MinerGetAsk (api c) miner askID));
  let price := Price ask in
  chainHeight ← invoke CallChainBlockHeight (fun c => ChainBlockHeight (api c));
  from ← invoke (CallConfigGet "wallet.defaultAddress")
                (fun c => ConfigGet (api c) "wallet.defaultAddress");
  fromAddress ← match from with
                 | CfgAddress a =>
                     if Empty a
                     then fail (New "Default wallet address is not set correctly")
                     else mret a
                 | CfgOther _ =>
                     fail (New "Default wallet address is not set correctly")
                 end;
  minerOwner ← invoke (CallMinerGetOwnerAddress miner)
                      (fun c => MinerGetOwnerAddress (api c) miner);
  let proposal :=
    {| PieceRef := data;
       Size := size;
       TotalPrice := totalPrice price size duration;
       Duration := duration;
       MinerAddress := miner;
       Payment := zeroPayment;
       LastDuplicate := "" |} in
  mret (MkDraft size price chainHeight fromAddress minerOwner proposal).

(** ** Duplicate resolution (ProposeDeal, lines 141-159) *)

(** [_, isDuplicate := smc.deals[proposalCid]]. *)
Definition isDuplicateOf (c : Cid) : M bool :=
  gets (fun s => bool_decide (is_Some (deals s !! c))).

(** The [for ; isDuplicate; _, isDuplicate = smc.deals[proposalCid]] loop.
    The source puts no bound on it; [fuel] bounds the iterations of the
    model, and running out of it is [OutOfFuel]. *)
Fixpoint dedupLoop (fuel : nat) (isDuplicate : bool)
    (proposal : Proposal) (proposalCid : Cid) : M (Proposal * Cid) :=
  if isDuplicate then
    match fuel with
    | O => diverge
    | S fuel' =>
        let proposal := setLastDuplicate (CidString L proposalCid) proposal in
        proposalCid ← wrapped "failed to get cid of proposal"
                              (lift (ToCid L proposal));
        isDuplicate ← isDuplicateOf proposalCid;
        dedupLoop fuel' isDuplicate proposal proposalCid
    end
  else mret (proposal, proposalCid).

Definition resolveDuplicate (fuel : nat) (allowDuplicates : bool)
    (proposal : Proposal) : M (Proposal * Cid) :=
  proposalCid ← wrapped "failed to get cid of proposal"
                        (lift (ToCid L proposal));
  isDuplicate ← isDuplicateOf proposalCid;
  if isDuplicate && negb allowDuplicates
  then fail ErrDuplicateDeal
  else dedupLoop fuel isDuplicate proposal proposalCid.

(** ** Payment and exchange (ProposeDeal, lines 161-190) *)

Definition paymentParams (d : Draft) (duration : Z) : CreatePaymentsParams :=
  {| From := dFromAddress d;
     To := dMinerOwner d;
     Value := totalPrice (dPrice d) (dSize d) duration;
     CPDuration := duration;
     PaymentInterval := VoucherInterval;
     ChannelExpiry :=
       BlockHeightAdd (dChainHeight d)
                      (uint64_add duration ChannelExpiryBuffer);
     GasPrice := NewInt CreateChannelGasPrice;
     GasLimit := CreateChannelGasLimit |}.

Definition fundAndSend (d : Draft) (miner : Address) (duration : Z)
    (proposal : Proposal) : M (Proposal * Response) :=
  let params := paymentParams d duration in
  cpResp ← invoke (CallCreatePayments params)
                  (fun c => CreatePayments (api c) params);
  let proposal :=
    setPayment {| Channel := CPChannel cpResp;
                  ChannelMsgCid := CidString L (CPChannelMsgCid cpResp);
                  Vouchers := CPVouchers cpResp |} proposal in
  pid ← invoke (CallMinerGetPeerID miner)
               (fun c => MinerGetPeerID (api c) miner);
  response ← wrapped "error sending proposal"
     (invoke (CallMakeProtocolRequest (makeDealProtocol L) pid (ReqProposal proposal))
             (fun c => MakeProtocolRequest (node c) (makeDealProtocol L) pid
                                           (ReqProposal proposal)));
  mret (proposal, response).

(** Lines 100-190 of ProposeDeal: everything up to the receipt of the
    miner's response. *)
Definition negotiate (fuel : nat) (miner : Address) (data : Cid)
    (askID duration : Z) (allowDuplicates : bool)
  : M (Proposal * Cid * Response) :=
  d ← buildProposal miner data askID duration;
  '(proposal, proposalCid) ← resolveDuplicate fuel allowDuplicates (dProposal d);
  '(proposal, response) ← fundAndSend d miner duration proposal;
  mret (proposal, proposalCid, response).

(** ** The deal store *)

Definition saveDeal (c : Cid) : M unit :=
  found ← gets (fun s => deals s !! c);
  match found with
  | None =>
      fail (New ("Could not find client deal with cid: " +:+ CidString L c))
  | Some storageDeal =>
      datum ← wrapped "could not marshal storageDeal"
                      (lift (DumpObject L storageDeal));
      let key := KeyWithNamespaces [ClientDatastorePrefix L; CidString L c] in
      err ← dsPut key datum;
      wrapped "could not save client deal to disk, in-memory deals differ from persisted deals!"
              (check err)
  end.

Definition recordResponse (resp : Response) (miner : Address) (p : Proposal)
    (proposalCid : Cid) : M unit :=
  found ← gets (fun s => deals s !! proposalCid);
  match found with
  | Some _ =>
      fail (New ("deal [" +:+ CidString L proposalCid +:+ "] is already in progress"))
  | None =>
      ds ← gets deals;
      setDeals (<[proposalCid := MkDeal miner p resp]> ds) ;;
      saveDeal proposalCid
  end.

Definition checkDealResponse (resp : Response) : option error :=
  match RState resp with
  | Rejected => Some (New ("deal rejected: " +:+ Message resp))
  | Failed => Some (New ("deal failed: " +:+ Message resp))
  | Accepted => None
  | _ => Some (New ("invalid proposal response: " +:+ StateString L (RState resp)))
  end.

Definition minerForProposal (c : Cid) : M Address :=
  found ← gets (fun s => deals s !! c);
  match found with
  | None => fail (New ("no such proposal by cid: " +:+ CidString L c))
  | Some st => mret (Miner st)
  end.

(** ** ProposeDeal *)

Definition ProposeDeal (fuel : nat) (miner : Address) (data : Cid)
    (askID duration : Z) (allowDuplicates : bool) : M Response :=
  '(proposal, proposalCid, response) ←
     negotiate fuel miner data askID duration allowDuplicates;
  wrapped "response check failed" (check (checkDealResponse response)) ;;
  wrapped "failed to track response"
          (recordResponse response miner proposal proposalCid) ;;
  mret response.

(** ** QueryDeal *)

Definition QueryDeal (proposalCid : Cid) : M Response :=
  mineraddr ← minerForProposal proposalCid;
  minerpid ← invoke (CallMinerGetPeerID mineraddr)
                    (fun c => MinerGetPeerID (api c) mineraddr);
  let q := MkQueryRequest proposalCid in
  resp ← wrapped "error querying deal"
     (invoke (CallMakeProtocolRequest (queryDealProtocol L) minerpid (ReqQuery q))
             (fun c => MakeProtocolRequest (node c) (queryDealProtocol L) minerpid
                                           (ReqQuery q)));
  mret resp.

(** ** Loading the store *)

(** The [select] over the two channels of the enumeration, executed once:
    it receives the first deal if the producer has one to deliver, and the
    termination value otherwise. *)
Definition loadDeals : M unit :=
  setDeals ∅ ;;
  enum ← (logCall CallDealsLs ;; gets (fun c => DealsLs (api c)));
  match produced enum with
  | storageDeal :: _ =>
      ds ← gets deals;
      setDeals (<[ProposalCid (DResponse storageDeal) := storageDeal]> ds)
  | [] => check (termination enum)
  end.

Definition NewClient (nd : clientNode) (ap : clientPorcelainAPI)
    (ds : Datastore) : outcome unit * World :=
  wrapped "failed to load client deals" loadDeals
          (MkWorld (MkClient ∅ ds nd ap) []).

Definition LoadVouchersForDeal (dealCid : Cid) : M (list PaymentVoucher) :=
  enum ← (logCall CallDealsLs ;; gets (fun c => DealsLs (api c)));
  match produced enum with
  | storageDeal :: _ =>
      if bool_decide (ProposalCid (DResponse storageDeal) = dealCid)
      then mret ([] ++ Vouchers (Payment (DProposal storageDeal)))
      else mret []
  | [] => check (termination enum) ;; mret []
  end.

End ClientCode.

(** ** ClientNodeImpl *)

(** The stream handed out by the host, as far as one exchange uses it: one
    framed write ([cbu.NewMsgWriter(s).WriteMsg]) and one framed read
    ([cbu.NewMsgReader(s).ReadMsg]). *)
Record Stream : Type := MkStream {
  WriteMsg : Request -> option error;
  ReadMsg : result Response
}.

(** [host.Host], as far as the client node uses it. *)
Record Host : Type := MkHost {
  NewStream : PeerID -> ProtocolID -> result Stream
}.

Module ClientNodeImpl.

Record t : Type := Make {
  dserv : Cid -> result Z;   (* getFileSize over the DAG service *)
  host : Host
}.

Definition GetFileSize (cni : t) (c : Cid) : result Z := dserv cni c.

Definition MakeProtocolRequest (cni : t) (protocol : ProtocolID)
    (peer : PeerID) (request : Request) : result Response :=
  match NewStream (host cni) peer protocol with
  | Err err =>
      match err with
      | ErrNotSupported =>
          Err (New "could not establish connection with peer. Peer does not support protocol")
      | _ => Err (Wrap err "failed to establish connection with the peer")
      end
  | Ok s =>
      match WriteMsg s request with
      | Some err => Err (Wrap err "failed to write request")
      | None =>
          match ReadMsg s with
          | Err err => Err (Wrap err "failed to read response")
          | Ok response => Ok response
          end
      end
  end.

(** [ClientNodeImpl] implements [clientNode]. *)
Definition asClientNode (cni : t) : clientNode :=
  MkClientNode (GetFileSize cni) (MakeProtocolRequest cni).

End ClientNodeImpl.

(** ** Operations offered to callers *)

Inductive Operation : Type :=
| OpProposeDeal (fuel : nat) (miner : Address) (data : Cid)
                (askID duration : Z) (allowDuplicates : bool)
| OpQueryDeal (proposalCid : Cid)
| OpLoadVouchersForDeal (dealCid : Cid).

(** The world after an operation, whatever it returned. *)
Definition perform (L : Library) (op : Operation) (w : World) : World :=
  match op with
  | OpProposeDeal fuel miner data askID duration allowDuplicates =>
      snd (ProposeDeal L fuel miner data askID duration allowDuplicates w)
  | OpQueryDeal proposalCid => snd (QueryDeal L proposalCid w)
  | OpLoadVouchersForDeal dealCid => snd (LoadVouchersForDeal dealCid w)
  end.

(** Calls that reach the payment subsystem or the network. *)
Definition paymentOrRequest (c : Call) : bool :=
  match c with
  | CallCreatePayments _ | CallMakeProtocolRequest _ _ _ => true
  | _ => false
  end.

(** ** Notions used to state the properties *)

(** The key under which the deal of identity [c] is persisted. *)
Definition dealKey (L : Library) (c : Cid) : string :=
  KeyWithNamespaces [ClientDatastorePrefix L; CidString L c].

(** The state a terminated resolution of [p0] is in: either [p0] with a
    [LastDuplicate] that names the colliding identity of the variant of
    [p0] tried just before, together with its own identity, which the store
    does not hold; or the failure of the hash on some variant of [p0]. *)
Inductive Resolved (L : Library) (p0 : Proposal) (w : World)
  : outcome (Proposal * Cid) * World -> Prop :=
| ResolvedFresh (ld : string) (prev c' : Cid) :
    ToCid L (setLastDuplicate ld p0) = Ok prev ->
    is_Some (deals (smc w) !! prev) ->
    ToCid L (setLastDuplicate (CidString L prev) p0) = Ok c' ->
    deals (smc w) !! c' = None ->
    Resolved L p0 w (Return (setLastDuplicate (CidString L prev) p0, c'), w)
| ResolvedHashFailure (ld : string) (e : error) :
    ToCid L (setLastDuplicate ld p0) = Err e ->
    Resolved L p0 w (Fail (Wrap e "failed to get cid of proposal"), w).

(** The identities met so far by the resolver, [V], and the current one,
    [c]: no variant of [p0] hashing into them points, through its
    [LastDuplicate], at an identity outside [V]. *)
Definition acyclic (L : Library) (p0 : Proposal) (V : gset Cid) (c : Cid) : Prop :=
  forall ld x y r,
    ToCid L (setLastDuplicate ld p0) = Ok x ->
    x ∈ V ∪ {[c]} ->
    ToCid L r = Ok y ->
    ld = CidString L y ->
    y ∈ V.

(** ** A concrete setting

    A small world on which the definitions can be run: a library with a
    toy hash that depends on the piece and on [lastDuplicate], a miner
    asking 10 per byte and height, and a handful of files. *)
Module Sample.

Definition library : Library :=
  {| ToCid := fun p =>
       Ok (MkCid ("Qm" +:+ str (PieceRef p) +:+ "/" +:+ LastDuplicate p));
     CidString := fun c => "z" +:+ str c;
     DumpObject := fun d => Ok (str (ProposalCid (DResponse d)));
     StateString := fun s =>
       match s with
       | Unknown => "unknown"
       | Rejected => "rejected"
       | Accepted => "accepted"
       | Failed => "failed"
       | OtherState _ => "<unrecognized>"
       end;
     ClientDatastorePrefix := "client";
     makeDealProtocol := "/fil/storage/mk/1.0.0";
     queryDealProtocol := "/fil/storage/qry/1.0.0" |}.

(** A library whose hash looks at the piece only. *)
Definition pieceOnly : Library :=
  {| ToCid := fun p => Ok (MkCid ("Qm" +:+ str (PieceRef p)));
     CidString := CidString library;
     DumpObject := DumpObject library;
     StateString := StateString library;
     ClientDatastorePrefix := ClientDatastorePrefix library;
     makeDealProtocol := makeDealProtocol library;
     queryDealProtocol := queryDealProtocol library |}.

Definition small : Cid := MkCid "small".
Definition huge : Cid := MkCid "huge".

(** The response the miner gives to a proposal or to a query. *)
Definition answer (st : State) (req : Request) : Response :=
  match req with
  | ReqProposal p =>
      MkResponse st "no space left"
                 (MkCid ("Qm" +:+ str (PieceRef p) +:+ "/" +:+ LastDuplicate p))
  | ReqQuery q => MkResponse st "no space left" (QCid q)
  end.

Definition nodeWith (st : State) : clientNode :=
  {| GetFileSize := fun c =>
       if bool_decide (c = small) then Ok 5
       else if bool_decide (c = huge) then Ok (2 ^ 32)
       else Err (New "not found");
     MakeProtocolRequest := fun _ _ req => Ok (answer st req) |}.

Definition apiWith (enum : DealEnumeration) : clientPorcelainAPI :=
  {| ConfigGet := fun _ => Ok (CfgAddress "wallet");
     ChainBlockHeight := Ok 7;
     CreatePayments := fun _ => Ok (MkCreatePaymentsReturn 1 (MkCid "msg") ["v1"]);
     MinerGetAsk := fun _ _ => Ok (MkAsk 10 0);
     MinerGetOwnerAddress := fun _ => Ok "owner";
     MinerGetPeerID := fun _ => Ok "peer";
     DealsLs := enum |}.

Definition store (fault : string -> option error) : Datastore :=
  MkDatastore ∅ fault.

Definition noFault : string -> option error := fun _ => None.
Definition diskFull : string -> option error := fun _ => Some (New "disk full").

Definition smallProposal : Proposal :=
  {| PieceRef := small; Size := 5; TotalPrice := 150; Duration := 3;
     MinerAddress := "miner"; Payment := zeroPayment; LastDuplicate := "" |}.

Definition dealOf (c : Cid) : Deal :=
  MkDeal "miner" smallProposal (MkResponse Accepted "" c).

Definition cid0 : Cid := MkCid "Qmsmall/".
Definition cid1 : Cid := MkCid "Qmsmall/zQmsmall/".
Definition cid2 : Cid := MkCid "Qmsmall/zQmsmall/zQmsmall/".

(** A client whose store holds the given deals, with an empty call log. *)
Definition world (st : State) (fault : string -> option error)
    (enum : DealEnumeration) (known : list Cid) : World :=
  MkWorld
    (MkClient (list_to_map ((fun c => (c, dealOf c)) <$> known))
              (store fault) (nodeWith st) (apiWith enum))
    [].

Definition noDeals : DealEnumeration := MkDealEnumeration [] None.

(** A host whose streams answer as told. *)
Definition hostWith (open : result Stream) : ClientNodeImpl.t :=
  ClientNodeImpl.Make (fun _ => Ok 5) (MkHost (fun _ _ => open)).

End Sample.

(** ** A setting with failing collaborators

    The sample world again, with each collaborator answering as told, so
    that the failure paths can be run. *)
Module Faulty.

Definition apiWith (ask : result Ask) (cfg : result ConfigValue)
    (pay : result CreatePaymentsReturn) (peer : result PeerID)
    (enum : DealEnumeration) : clientPorcelainAPI :=
  {| ConfigGet := fun _ => cfg;
     ChainBlockHeight := Ok 7;
     CreatePayments := fun _ => pay;
     MinerGetAsk := fun _ _ => ask;
     MinerGetOwnerAddress := fun _ => Ok "owner";
     MinerGetPeerID := fun _ => peer;
     DealsLs := enum |}.

Definition nodeWith (send : result Response) : clientNode :=
  {| GetFileSize := GetFileSize (Sample.nodeWith Accepted);
     MakeProtocolRequest := fun _ _ _ => send |}.

Definition goodAsk : result Ask := Ok (MkAsk 10 0).
Definition goodCfg : result ConfigValue := Ok (CfgAddress "wallet").
Definition goodPay : result CreatePaymentsReturn :=
  Ok (MkCreatePaymentsReturn 1 (MkCid "msg") ["v1"]).
Definition goodPeer : result PeerID := Ok "peer".
Definition goodSend : result Response :=
  Ok (MkResponse Accepted "" Sample.cid0).

Definition world (nd : clientNode) (ap : clientPorcelainAPI)
    (known : list Cid) : World :=
  MkWorld
    (MkClient (list_to_map ((fun c => (c, Sample.dealOf c)) <$> known))
              (Sample.store Sample.noFault) nd ap)
    [].

(** The sample library with a serializer that refuses every deal. *)
Definition noCodec : Library :=
  {| ToCid := ToCid Sample.library;
     CidString := CidString Sample.library;
     DumpObject := fun _ => Err (New "unsupported type");
     StateString := StateString Sample.library;
     ClientDatastorePrefix := ClientDatastorePrefix Sample.library;
     makeDealProtocol := makeDealProtocol Sample.library;
     queryDealProtocol := queryDealProtocol Sample.library |}.

(** A stored deal whose proposal carries a voucher. *)
Definition fundedDeal (c : Cid) : Deal :=
  MkDeal "miner"
         (setPayment (MkPaymentInfo 1 "zmsg" ["v1"]) Sample.smallProposal)
         (MkResponse Accepted "" c).

(** The draft that the builder makes of the small file for three heights. *)
Definition smallDraft : Draft :=
  MkDraft 5 10 7 "wallet" "owner" Sample.smallProposal.

(** The small proposal once the payment of [goodPay] is attached. *)
Definition fundedProposal : Proposal :=
  setPayment (MkPaymentInfo 1 "zmsg" ["v1"]) Sample.smallProposal.

End Faulty.

(** * Properties *)

(** ** Running monadic code *)

Lemma bind_run {A B} (m : M A) (f : A -> M B) (w : World) :
  (m ≫= f) w =
  match m w with
  | (Return a, w') => f a w'
  | (Fail e, w') => (Fail e, w')
  | (OutOfFuel, w') => (OutOfFuel, w')
  end.
Proof. reflexivity. Qed.

Lemma invoke_run {A} (c : Call) (f : Client -> result A) (w : World) :
  invoke c f w =
  (match f (smc w) with Ok a => Return a | Err e => Fail e end,
   MkWorld (smc w) (calls w ++ [c])).
Proof.
  unfold invoke, logCall, gets, lift.
  rewrite !bind_run; simpl.
  destruct (f (smc w)); reflexivity.
Qed.

Lemma wrapped_run {A} (msg : string) (m : M A) (w : World) :
  wrapped msg m w =
  match m w with
  | (Fail e, w') => (Fail (Wrap e msg), w')
  | r => r
  end.
Proof. reflexivity. Qed.

Lemma lift_run {A} (r : result A) (w : World) :
  lift r w = (match r with Ok a => Return a | Err e => Fail e end, w).
Proof. destruct r; reflexivity. Qed.

Lemma check_run (err : option error) (w : World) :
  check err w = (match err with Some e => Fail e | None => Return tt end, w).
Proof. destruct err; reflexivity. Qed.

Lemma ret_run {A} (a : A) (w : World) : (mret a : M A) w = (Return a, w).
Proof. reflexivity. Qed.

Lemma fail_run {A} (e : error) (w : World) : @fail A e w = (Fail e, w).
Proof. reflexivity. Qed.

Lemma gets_run {A} (f : Client -> A) (w : World) :
  gets f w = (Return (f (smc w)), w).
Proof. reflexivity. Qed.

Ltac run :=
  repeat first
    [ rewrite bind_run
    | rewrite ret_run
    | rewrite fail_run
    | rewrite gets_run
    | rewrite invoke_run
    | rewrite wrapped_run
    | rewrite lift_run
    | rewrite check_run ];
  cbn [fst snd smc calls deals dealsDs node api].

(** ** Arithmetic of the total price *)

Lemma int64_of_uint64_small (x : Z) :
  0 <= x < 2 ^ 63 -> int64_of_uint64 x = x.
Proof.
  intros [_ Hx]. unfold int64_of_uint64.
  destruct (Z.ltb_spec x (2 ^ 63)); [reflexivity | lia].
Qed.

(** As long as the product of size and duration fits in 63 bits, the total
    price is the exact product of the three quantities. *)
Lemma totalPrice_exact (price size duration : Z) :
  0 <= size * duration < 2 ^ 63 ->
  totalPrice price size duration = price * size * duration.
Proof.
  intros H. unfold totalPrice, MulBigInt, NewInt, uint64_mul, uint64_modulus.
  rewrite Z.mod_small by lia.
  rewrite int64_of_uint64_small by lia. lia.
Qed.

Lemma totalPrice_exact_witness :
  0 <= 5 * 3 < 2 ^ 63 /\ totalPrice 10 5 3 = 10 * 5 * 3.
Proof. split; [lia | apply totalPrice_exact; lia]. Defined.

(** ** The proposal builder *)

Lemma buildProposal_inv (miner : Address) (data : Cid) (askID duration : Z)
    (w w' : World) (r : outcome Draft) :
  buildProposal miner data askID duration w = (r, w') ->
  smc w' = smc w /\
  (exists evs, calls w' = calls w ++ evs /\
               forallb (fun c => negb (paymentOrRequest c)) evs = true) /\
  (forall d, r = Return d ->
     dProposal d =
       {| PieceRef := data;
          Size := dSize d;
          TotalPrice := totalPrice (dPrice d) (dSize d) duration;
          Duration := duration;
          MinerAddress := miner;
          Payment := zeroPayment;
          LastDuplicate := "" |}) /\
  r <> OutOfFuel.
Proof.
  unfold buildProposal. run.
  destruct (GetFileSize (node (smc w)) data) as [size|e]; run.
  2:{ intros [= <- <-]; simpl. split; [done|]. split; [|done].
      eexists; split; [reflexivity|reflexivity]. }
  destruct (MinerGetAsk (api (smc w)) miner askID) as [ask|e]; run.
  2:{ intros [= <- <-]; simpl. split; [done|]. split; [|done].
      eexists; split; [by rewrite <- app_assoc|reflexivity]. }
  destruct (ChainBlockHeight (api (smc w))) as [h|e]; run.
  2:{ intros [= <- <-]; simpl. split; [done|]. split; [|done].
      eexists; split; [by rewrite <- !app_assoc|reflexivity]. }
  destruct (ConfigGet (api (smc w)) "wallet.defaultAddress") as [from|e]; run.
  2:{ intros [= <- <-]; simpl. split; [done|]. split; [|done].
      eexists; split; [by rewrite <- !app_assoc|reflexivity]. }
  destruct from as [a|v]; [destruct (Empty a)|]; run;
    try (intros [= <- <-]; simpl; split; [done|]; split; [|done];
         eexists; split; [by rewrite <- !app_assoc|reflexivity]).
  destruct (MinerGetOwnerAddress (api (smc w)) miner) as [o|e]; run.
  2:{ intros [= <- <-]; simpl. split; [done|]. split; [|done].
      eexists; split; [by rewrite <- !app_assoc|reflexivity]. }
  intros [= <- <-]; simpl. split; [done|]. split; [|split; [|done]].
  - eexists; split; [by rewrite <- !app_assoc|reflexivity].
  - by intros d [= <-].
Qed.

(** ** The duplicate resolver *)

Section Resolver.

Variable L : Library.

Lemma isDuplicateOf_run (c : Cid) (w : World) :
  isDuplicateOf c w = (Return (bool_decide (is_Some (deals (smc w) !! c))), w).
Proof. reflexivity. Qed.

Lemma dedupLoop_done (fuel : nat) (p : Proposal) (c : Cid) (w : World) :
  dedupLoop L fuel false p c w = (Return (p, c), w).
Proof. destruct fuel; reflexivity. Qed.

Lemma dedupLoop_step (fuel : nat) (p : Proposal) (c : Cid) (w : World) :
  dedupLoop L (S fuel) true p c w =
  match ToCid L (setLastDuplicate (CidString L c) p) with
  | Err e => (Fail (Wrap e "failed to get cid of proposal"), w)
  | Ok c1 =>
      dedupLoop L fuel (bool_decide (is_Some (deals (smc w) !! c1)))
                (setLastDuplicate (CidString L c) p) c1 w
  end.
Proof.
  cbn [dedupLoop]. run.
  destruct (ToCid L (setLastDuplicate (CidString L c) p)); run;
    [rewrite isDuplicateOf_run|]; reflexivity.
Qed.

(** Whatever the loop returns is an identity that the store does not hold,
    and the loop leaves the world as it found it. *)
Lemma dedupLoop_sound (fuel : nat) :
  forall (b : bool) (p : Proposal) (c : Cid) (w w' : World) r,
    b = bool_decide (is_Some (deals (smc w) !! c)) ->
    dedupLoop L fuel b p c w = (r, w') ->
    w' = w /\
    forall p' c', r = Return (p', c') -> deals (smc w) !! c' = None.
Proof.
  induction fuel as [|fuel IH]; intros b p c w w' r Hb.
  - destruct b.
    + intros [= <- <-]. split; [done|]. intros ? ? [=].
    + rewrite dedupLoop_done. intros [= <- <-]. split; [done|].
      intros p' c' [= <- <-]. symmetry in Hb.
      apply bool_decide_eq_false in Hb.
      by apply eq_None_not_Some.
  - destruct b.
    + rewrite dedupLoop_step.
      destruct (ToCid L (setLastDuplicate (CidString L c) p)) as [c1|e].
      * by apply IH.
      * intros [= <- <-]. split; [done|]. intros ? ? [=].
    + rewrite dedupLoop_done. intros [= <- <-]. split; [done|].
      intros p' c' [= <- <-]. symmetry in Hb.
      apply bool_decide_eq_false in Hb.
      by apply eq_None_not_Some.
Qed.

Lemma resolveDuplicate_sound (fuel : nat) (allowDuplicates : bool)
    (p : Proposal) (w w' : World) r :
  resolveDuplicate L fuel allowDuplicates p w = (r, w') ->
  w' = w /\
  forall p' c', r = Return (p', c') -> deals (smc w) !! c' = None.
Proof.
  unfold resolveDuplicate. run.
  destruct (ToCid L p) as [c|e]; run.
  2:{ intros [= <- <-]. split; [done|]. intros ? ? [=]. }
  rewrite isDuplicateOf_run; run.
  destruct (bool_decide (is_Some (deals (smc w) !! c)) && negb allowDuplicates).
  - run. intros [= <- <-]. split; [done|]. intros ? ? [=].
  - by apply dedupLoop_sound.
Qed.

Section Chain.

Variable p0 : Proposal.
Variable w : World.

(** Proposals that differ in [LastDuplicate] have different identities. *)
Hypothesis hash_separates :
  forall ld ld' x,
    ToCid L (setLastDuplicate ld p0) = Ok x ->
    ToCid L (setLastDuplicate ld' p0) = Ok x ->
    ld = ld'.

(** Different identities have different textual forms. *)
Hypothesis text_injective :
  forall a b, CidString L a = CidString L b -> a = b.

Lemma dedupLoop_terminates (fuel : nat) :
  forall (V : gset Cid) (ld : string) (c : Cid),
    V ⊆ dom (deals (smc w)) ->
    c ∉ V ->
    is_Some (deals (smc w) !! c) ->
    ToCid L (setLastDuplicate ld p0) = Ok c ->
    acyclic L p0 V c ->
    (size (dom (deals (smc w))) ≤ fuel + size V)%nat ->
    Resolved L p0 w (dedupLoop L fuel true (setLastDuplicate ld p0) c w).
Proof.
  induction fuel as [|fuel IH]; intros V ld c HV HcV Hc Hld Hacyc Hfuel.
  - exfalso.
    assert (size (V ∪ {[c]}) ≤ size (dom (deals (smc w))))%nat as Hle.
    { apply subseteq_size. apply union_least; [done|].
      apply singleton_subseteq_l. by apply elem_of_dom. }
    rewrite size_union in Hle by set_solver.
    rewrite size_singleton in Hle. lia.
  - rewrite dedupLoop_step.
    change (setLastDuplicate (CidString L c) (setLastDuplicate ld p0))
      with (setLastDuplicate (CidString L c) p0).
    destruct (ToCid L (setLastDuplicate (CidString L c) p0)) as [c1|e] eqn:Hc1.
    2:{ by apply (ResolvedHashFailure L p0 w (CidString L c)). }
    assert (c1 ∉ V ∪ {[c]}) as Hfresh.
    { intros Hin. apply HcV.
      by apply (Hacyc (CidString L c) c1 c (setLastDuplicate ld p0)). }
    destruct (decide (is_Some (deals (smc w) !! c1))) as [Hdup|Hnew].
    + rewrite bool_decide_eq_true_2 by done.
      apply (IH (V ∪ {[c]})); try done.
      * apply union_least; [done|].
        apply singleton_subseteq_l. by apply elem_of_dom.
      * intros ld' x y r Hx Hin Hy Hld'.
        apply elem_of_union in Hin as [Hin|Hin].
        -- apply elem_of_union_l. by apply (Hacyc ld' x y r).
        -- apply elem_of_singleton in Hin as ->.
           apply elem_of_union_r, elem_of_singleton.
           apply text_injective. rewrite <- Hld'.
           by apply (hash_separates ld' (CidString L c) c1).
      * rewrite size_union by set_solver. rewrite size_singleton. lia.
    + rewrite bool_decide_eq_false_2 by done.
      rewrite dedupLoop_done.
      apply (ResolvedFresh L p0 w ld); try done.
      by apply eq_None_not_Some.
Qed.

End Chain.

End Resolver.

(** More fuel does not change the result of a loop that came to an end. *)
Lemma dedupLoop_mono (L : Library) (fuel : nat) :
  forall (b : bool) (p : Proposal) (c : Cid) (w : World) (fuel' : nat),
    fst (dedupLoop L fuel b p c w) <> OutOfFuel ->
    (fuel ≤ fuel')%nat ->
    dedupLoop L fuel' b p c w = dedupLoop L fuel b p c w.
Proof.
  induction fuel as [|fuel IH]; intros b p c w fuel' Hend Hle.
  - destruct b; [by destruct Hend|]. by rewrite !dedupLoop_done.
  - destruct b; [|by rewrite !dedupLoop_done].
    destruct fuel' as [|fuel']; [lia|].
    rewrite dedupLoop_step in Hend. rewrite !dedupLoop_step.
    destruct (ToCid L (setLastDuplicate (CidString L c) p)); [|done].
    apply IH; [done|lia].
Qed.

Lemma Resolved_ended (L : Library) (p0 : Proposal) (w : World) out :
  Resolved L p0 w out -> fst out <> OutOfFuel.
Proof. by intros []. Qed.

(** The bound on the loop comes from the hash: with a hash that does not
    look at [LastDuplicate], a colliding proposal collides for ever and the
    loop uses up any fuel. *)
Lemma dedupLoop_pieceOnly_runs_out (fuel : nat) :
  forall (p : Proposal) (c : Cid) (w : World),
    ToCid Sample.pieceOnly p = Ok c ->
    is_Some (deals (smc w) !! c) ->
    dedupLoop Sample.pieceOnly fuel true p c w = (OutOfFuel, w).
Proof.
  induction fuel as [|fuel IH]; intros p c w Hc Hin; [reflexivity|].
  rewrite dedupLoop_step.
  change (ToCid Sample.pieceOnly (setLastDuplicate
            (CidString Sample.pieceOnly c) p))
    with (ToCid Sample.pieceOnly p).
  rewrite Hc, bool_decide_eq_true_2 by done.
  by apply IH.
Qed.

(** ** Payment and exchange leave the store alone *)

Lemma fundAndSend_inv (L : Library) (d : Draft) (miner : Address)
    (duration : Z) (p : Proposal) (w w' : World) r :
  fundAndSend L d miner duration p w = (r, w') ->
  smc w' = smc w /\ r <> OutOfFuel.
Proof.
  unfold fundAndSend. run.
  destruct (CreatePayments _ _) as [cp|e]; run; [|by intros [= <- <-]].
  destruct (MinerGetPeerID _ _) as [pid|e]; run; [|by intros [= <- <-]].
  destruct (MakeProtocolRequest _ _ _ _) as [resp|e]; run; by intros [= <- <-].
Qed.

Lemma negotiate_inv (L : Library) (fuel : nat) (miner : Address) (data : Cid)
    (askID duration : Z) (allowDuplicates : bool) (w w' : World) r :
  negotiate L fuel miner data askID duration allowDuplicates w = (r, w') ->
  smc w' = smc w /\
  forall p c resp, r = Return (p, c, resp) -> deals (smc w) !! c = None.
Proof.
  unfold negotiate. rewrite bind_run.
  destruct (buildProposal miner data askID duration w) as [rb wb] eqn:Hb.
  apply buildProposal_inv in Hb as (Hsmc & _ & _ & _).
  destruct rb as [d|e|]; [|by intros [= <- <-]..].
  rewrite bind_run.
  destruct (resolveDuplicate L fuel allowDuplicates (dProposal d) wb)
    as [rr wr] eqn:Hr.
  apply resolveDuplicate_sound in Hr as [-> Hfresh].
  destruct rr as [[p c]|e|]; [|by intros [= <- <-]..].
  specialize (Hfresh p c eq_refl). rewrite Hsmc in Hfresh.
  rewrite bind_run.
  destruct (fundAndSend L d miner duration p wb) as [rf wf] eqn:Hf.
  apply fundAndSend_inv in Hf as [Hsmc' _].
  destruct rf as [[p' resp]|e|]; run; intros [= <- <-];
    (split; [congruence|]); try done.
  by intros ? ? ? [= <- <- <-].
Qed.

(** ** Recording a response *)

Section Recording.

Variable L : Library.

Lemma recordResponse_known (resp : Response) (miner : Address) (p : Proposal)
    (c : Cid) (w : World) (d : Deal) :
  deals (smc w) !! c = Some d ->
  recordResponse L resp miner p c w =
  (Fail (New ("deal [" +:+ CidString L c +:+ "] is already in progress")), w).
Proof. intros H. unfold recordResponse. run. rewrite H. by run. Qed.

Lemma recordResponse_fresh (resp : Response) (miner : Address) (p : Proposal)
    (c : Cid) (w : World) :
  deals (smc w) !! c = None ->
  let d := MkDeal miner p resp in
  let mem := <[c := d]> (deals (smc w)) in
  recordResponse L resp miner p c w =
  match DumpObject L d with
  | Err e =>
      (Fail (Wrap e "could not marshal storageDeal"),
       MkWorld (MkClient mem (dealsDs (smc w)) (node (smc w)) (api (smc w)))
               (calls w))
  | Ok datum =>
      match putFault (dealsDs (smc w)) (dealKey L c) with
      | Some e =>
          (Fail (Wrap e "could not save client deal to disk, in-memory deals differ from persisted deals!"),
           MkWorld (MkClient mem (dealsDs (smc w)) (node (smc w)) (api (smc w)))
                   (calls w ++ [CallPut (dealKey L c) datum]))
      | None =>
          (Return tt,
           MkWorld (MkClient mem
                      (MkDatastore (<[dealKey L c := datum]> (kv (dealsDs (smc w))))
                                   (putFault (dealsDs (smc w))))
                      (node (smc w)) (api (smc w)))
                   (calls w ++ [CallPut (dealKey L c) datum]))
      end
  end.
Proof.
  intros H d mem. unfold recordResponse, saveDeal. run. rewrite H.
  run. unfold setDeals at 1. run.
  rewrite lookup_insert_eq. run.
  fold d mem.
  destruct (DumpObject L d) as [datum|e]; run; [|reflexivity].
  unfold dsPut, Put; cbn [smc dealsDs deals node api calls].
  fold (dealKey L c).
  destruct (putFault (dealsDs (smc w)) (dealKey L c)) as [e|];
    run; reflexivity.
Qed.

(** Entries of the in-memory map survive [recordResponse]. *)
Lemma recordResponse_preserves (resp : Response) (miner : Address)
    (p : Proposal) (c c' : Cid) (w : World) (d : Deal) :
  deals (smc w) !! c' = Some d ->
  deals (smc (snd (recordResponse L resp miner p c w))) !! c' = Some d.
Proof.
  intros H.
  destruct (deals (smc w) !! c) as [d0|] eqn:Hc.
  - by rewrite (recordResponse_known _ _ _ _ _ d0).
  - rewrite recordResponse_fresh by done.
    assert (c <> c') by congruence.
    destruct (DumpObject L _); [destruct (putFault _ _)|]; simpl;
      by rewrite lookup_insert_ne.
Qed.

End Recording.

(** ** ProposeDeal and QueryDeal as a whole *)

Lemma ProposeDeal_after_exchange (L : Library) (fuel : nat) (miner : Address)
    (data : Cid) (askID duration : Z) (allowDuplicates : bool)
    (w w1 : World) (p : Proposal) (c : Cid) (r : Response) :
  negotiate L fuel miner data askID duration allowDuplicates w
    = (Return (p, c, r), w1) ->
  ProposeDeal L fuel miner data askID duration allowDuplicates w =
  match checkDealResponse L r with
  | Some e => (Fail (Wrap e "response check failed"), w1)
  | None =>
      match recordResponse L r miner p c w1 with
      | (Return _, w2) => (Return r, w2)
      | (Fail e, w2) => (Fail (Wrap e "failed to track response"), w2)
      | (OutOfFuel, w2) => (OutOfFuel, w2)
      end
  end.
Proof.
  intros H. unfold ProposeDeal. rewrite bind_run, H. run.
  destruct (checkDealResponse L r); run; [reflexivity|].
  destruct (recordResponse L r miner p c w1) as [[| |] w2]; run; reflexivity.
Qed.

Lemma ProposeDeal_preserves (L : Library) (fuel : nat) (miner : Address)
    (data : Cid) (askID duration : Z) (allowDuplicates : bool)
    (w : World) (c : Cid) (d : Deal) :
  deals (smc w) !! c = Some d ->
  deals (smc (snd (ProposeDeal L fuel miner data askID duration
                               allowDuplicates w))) !! c = Some d.
Proof.
  intros Hd.
  destruct (negotiate L fuel miner data askID duration allowDuplicates w)
    as [rn w1] eqn:Hn.
  pose proof (negotiate_inv _ _ _ _ _ _ _ _ _ _ Hn) as [Hsmc _].
  destruct rn as [[[p c'] r]|e|].
  - rewrite (ProposeDeal_after_exchange _ _ _ _ _ _ _ _ _ _ _ _ Hn).
    destruct (checkDealResponse L r); simpl; [by rewrite Hsmc|].
    assert (deals (smc (snd (recordResponse L r miner p c' w1))) !! c = Some d)
      as Hrec by (apply recordResponse_preserves; by rewrite Hsmc).
    by destruct (recordResponse L r miner p c' w1) as [[| |] w2].
  - unfold ProposeDeal. rewrite bind_run, Hn. simpl. by rewrite Hsmc.
  - unfold ProposeDeal. rewrite bind_run, Hn. simpl. by rewrite Hsmc.
Qed.

Lemma QueryDeal_frame (L : Library) (proposalCid : Cid) (w : World) :
  smc (snd (QueryDeal L proposalCid w)) = smc w.
Proof.
  unfold QueryDeal, minerForProposal. run.
  destruct (deals (smc w) !! proposalCid) as [st|]; run; [|reflexivity].
  destruct (MinerGetPeerID _ _) as [pid|e]; run; [|reflexivity].
  destruct (MakeProtocolRequest _ _ _ _) as [resp|e]; run; reflexivity.
Qed.

Lemma LoadVouchersForDeal_frame (dealCid : Cid) (w : World) :
  smc (snd (LoadVouchersForDeal dealCid w)) = smc w.
Proof.
  unfold LoadVouchersForDeal, logCall. run.
  destruct (produced _) as [|storageDeal rest].
  - run. destruct (termination _); run; reflexivity.
  - destruct (bool_decide _); run; reflexivity.
Qed.

Lemma loadDeals_first (d : Deal) (rest : list Deal) (w : World) :
  produced (DealsLs (api (smc w))) = d :: rest ->
  loadDeals w =
  (Return tt,
   MkWorld (MkClient {[ProposalCid (DResponse d) := d]} (dealsDs (smc w))
                     (node (smc w)) (api (smc w)))
           (calls w ++ [CallDealsLs])).
Proof.
  intros H. unfold loadDeals, setDeals, logCall. run. rewrite H. run.
  reflexivity.
Qed.

(** Facts about the sample library, used to run the resolver on it. *)
Lemma Sample_hash_separates (p0 : Proposal) (ld ld' : string) (x : Cid) :
  ToCid Sample.library (setLastDuplicate ld p0) = Ok x ->
  ToCid Sample.library (setLastDuplicate ld' p0) = Ok x ->
  ld = ld'.
Proof.
  simpl. intros [= <-] [= H].
  by repeat (apply (inj (String.app _)) in H).
Qed.

Lemma Sample_text_injective (a b : Cid) :
  CidString Sample.library a = CidString Sample.library b -> a = b.
Proof.
  destruct a as [a], b as [b]. unfold Sample.library, CidString, str.
  intros H. apply (inj (String.app _)) in H. by subst.
Qed.

Lemma Sample_text_nonempty (r : Proposal) (y : Cid) :
  ToCid Sample.library r = Ok y -> CidString Sample.library y <> "".
Proof. intros _. destruct y as [y]. cbn. discriminate. Qed.

(** * The claims *)

(** C1: the total price of a built proposal is meant to be the exact
    product price x size x duration.  The code multiplies size and duration
    as 64-bit unsigned integers before the product reaches the big-integer
    multiplication, so the product wraps: a miner asking 10, a piece of
    2^32 bytes and a duration of 2^32 heights give a proposal whose total
    price is 0, where the exact product is 184467440737095516160.  (The
    example of the claim, 10 x 5 x 3 = 150, is within range and comes out
    right.) *)
Theorem C1_totalPrice_wraps :
  let w := Sample.world Accepted Sample.noFault Sample.noDeals [] in
  totalPrice 10 5 3 = 150 /\
  totalPrice 10 (2 ^ 32) (2 ^ 32) = 0 /\
  10 * 2 ^ 32 * 2 ^ 32 = 184467440737095516160 /\
  (TotalPrice ∘ dProposal) <$>
    (match fst (buildProposal "miner" Sample.huge 0 (2 ^ 32) w) with
     | Return d => Some d
     | _ => None
     end) = Some 0.
Proof. repeat split; vm_compute; reflexivity. Qed.

(** C2: loading is meant to restore every deal that the enumeration
    delivers.  The code receives from the enumeration once: with two stored
    deals, a new client holds the first and not the second. *)
Theorem C2_loadDeals_restores_one :
  let enum :=
    MkDealEnumeration [Sample.dealOf Sample.cid0; Sample.dealOf Sample.cid1] None in
  exists w,
    NewClient (Sample.nodeWith Accepted) (Sample.apiWith enum)
              (Sample.store Sample.noFault) = (Return tt, w) /\
    deals (smc w) !! Sample.cid0 = Some (Sample.dealOf Sample.cid0) /\
    deals (smc w) !! Sample.cid1 = None.
Proof.
  intros enum. eexists. split; [|split].
  - unfold NewClient. rewrite wrapped_run.
    rewrite (loadDeals_first (Sample.dealOf Sample.cid0)
                             [Sample.dealOf Sample.cid1]) by reflexivity.
    reflexivity.
  - reflexivity.
  - reflexivity.
Qed.

(** C3: when the identity of the built proposal is already in the deal
    store and duplicates are not allowed, ProposeDeal fails with the
    duplicate error, whose text tells how to allow duplicates; the client
    is unchanged and no call was made to CreatePayments or to
    MakeProtocolRequest. *)
Theorem C3_duplicate_rejected (L : Library) (fuel : nat) (miner : Address)
    (data : Cid) (askID duration : Z) (w w1 : World) (d : Draft)
    (c : Cid) (d0 : Deal) :
  buildProposal miner data askID duration w = (Return d, w1) ->
  ToCid L (dProposal d) = Ok c ->
  deals (smc w) !! c = Some d0 ->
  ProposeDeal L fuel miner data askID duration false w
    = (Fail ErrDuplicateDeal, w1) /\
  Error ErrDuplicateDeal =
    "proposal is a duplicate of existing deal; if you would like to create a duplicate, add the --allow-duplicates flag" /\
  smc w1 = smc w /\
  exists evs, calls w1 = calls w ++ evs /\
              forallb (fun ev => negb (paymentOrRequest ev)) evs = true.
Proof.
  intros Hb Hc Hd.
  pose proof (buildProposal_inv _ _ _ _ _ _ _ Hb) as (Hsmc & Hcalls & _ & _).
  split; [|split; [reflexivity|split; [exact Hsmc|exact Hcalls]]].
  unfold ProposeDeal, negotiate. rewrite !bind_run, Hb.
  unfold resolveDuplicate. run. rewrite Hc. run.
  rewrite isDuplicateOf_run. run.
  rewrite Hsmc, bool_decide_eq_true_2 by (by rewrite Hd).
  reflexivity.
Qed.

Lemma C3_duplicate_rejected_witness :
  let w := Sample.world Accepted Sample.noFault Sample.noDeals [Sample.cid0] in
  let w1 := snd (buildProposal "miner" Sample.small 0 3 w) in
  ProposeDeal Sample.library 0 "miner" Sample.small 0 3 false w
    = (Fail ErrDuplicateDeal, w1) /\
  Error ErrDuplicateDeal =
    "proposal is a duplicate of existing deal; if you would like to create a duplicate, add the --allow-duplicates flag" /\
  smc w1 = smc w /\
  exists evs, calls w1 = calls w ++ evs /\
              forallb (fun ev => negb (paymentOrRequest ev)) evs = true.
Proof.
  intros w w1.
  apply (C3_duplicate_rejected Sample.library 0 "miner" Sample.small 0 3 w w1
           (MkDraft 5 10 7 "wallet" "owner" Sample.smallProposal)
           Sample.cid0 (Sample.dealOf Sample.cid0)).
  - vm_compute. reflexivity.
  - vm_compute. reflexivity.
  - vm_compute. reflexivity.
Defined.



(** C5: the in-memory deal store keeps at most one deal per identity.
    To record under an identity that already has an entry fails with "deal
    ... is already in progress" and changes nothing; and no operation of
    the client (ProposeDeal, QueryDeal, LoadVouchersForDeal), nor
    recordResponse under any identity, replaces or removes an entry that
    is there.  (loadDeals starts from a new map, and runs only inside
    NewClient, on a client that has no entry yet.) *)
Theorem C5_no_overwrite (L : Library) (w : World) (c : Cid) (d : Deal) :
  deals (smc w) !! c = Some d ->
  (forall resp miner p,
     recordResponse L resp miner p c w =
     (Fail (New ("deal [" +:+ CidString L c +:+ "] is already in progress")), w)) /\
  (forall resp miner p c',
     deals (smc (snd (recordResponse L resp miner p c' w))) !! c = Some d) /\
  (forall op, deals (smc (perform L op w)) !! c = Some d).
Proof.
  intros Hd. split; [|split].
  - intros resp miner p. by apply (recordResponse_known L _ _ _ _ _ d).
  - intros resp miner p c'. by apply recordResponse_preserves.
  - intros [fuel miner data askID duration allowDuplicates|q|v]; simpl.
    + by apply ProposeDeal_preserves.
    + by rewrite QueryDeal_frame.
    + by rewrite LoadVouchersForDeal_frame.
Qed.

Lemma C5_no_overwrite_witness :
  let w := Sample.world Accepted Sample.noFault Sample.noDeals [Sample.cid0] in
  (forall resp miner p,
     recordResponse Sample.library resp miner p Sample.cid0 w =
     (Fail (New ("deal [" +:+ CidString Sample.library Sample.cid0
                 +:+ "] is already in progress")), w)) /\
  (forall resp miner p c',
     deals (smc (snd (recordResponse Sample.library resp miner p c' w)))
       !! Sample.cid0 = Some (Sample.dealOf Sample.cid0)) /\
  (forall op, deals (smc (perform Sample.library op w)) !! Sample.cid0
              = Some (Sample.dealOf Sample.cid0)).
Proof.
  intros w.
  apply (C5_no_overwrite Sample.library w Sample.cid0 (Sample.dealOf Sample.cid0)).
  vm_compute. reflexivity.
Defined.

(** C6: with duplicates allowed and the identity of the built proposal
    already in the deal store, the resolution loop comes to an end: there
    is a number of iterations from which on the result no longer depends on
    the bound of the model.  It ends either with a proposal whose identity
    is not in the store and whose LastDuplicate is the textual form of the
    colliding identity of the proposal it was derived from, or, when the
    hash fails inside the loop, with that failure wrapped.  This rests on
    what the data model says of identities: a change of LastDuplicate
    changes the identity, different identities have different texts, and
    no identity has the empty text. *)
Theorem C6_resolution_terminates (L : Library) (miner : Address) (data : Cid)
    (askID duration : Z) (w w1 : World) (d : Draft) (c : Cid) (d0 : Deal) :
  buildProposal miner data askID duration w = (Return d, w1) ->
  ToCid L (dProposal d) = Ok c ->
  deals (smc w) !! c = Some d0 ->
  (forall ld ld' x,
     ToCid L (setLastDuplicate ld (dProposal d)) = Ok x ->
     ToCid L (setLastDuplicate ld' (dProposal d)) = Ok x ->
     ld = ld') ->
  (forall a b, CidString L a = CidString L b -> a = b) ->
  (forall r y, ToCid L r = Ok y -> CidString L y <> "") ->
  exists n out,
    Resolved L (dProposal d) w1 out /\
    forall fuel, (n ≤ fuel)%nat ->
      resolveDuplicate L fuel true (dProposal d) w1 = out.
Proof.
  intros Hb Hc Hd Hsep Htext Hne.
  pose proof (buildProposal_inv _ _ _ _ _ _ _ Hb) as (Hsmc & _ & Hshape & _).
  specialize (Hshape d eq_refl).
  assert (dProposal d = setLastDuplicate "" (dProposal d)) as Hp0
    by (rewrite Hshape; reflexivity).
  set (n := size (dom (deals (smc w1)))).
  assert (Resolved L (dProposal d) w1 (dedupLoop L n true (dProposal d) c w1))
    as Hres.
  { rewrite Hp0 at 2.
    apply (dedupLoop_terminates L (dProposal d) w1 Hsep Htext n ∅ "" c).
    - apply empty_subseteq.
    - apply not_elem_of_empty.
    - rewrite Hsmc, Hd. by eexists.
    - by rewrite <- Hp0.
    - intros ld x y r Hx Hin Hy Hld. exfalso.
      rewrite union_empty_l_L in Hin. apply elem_of_singleton in Hin as ->.
      rewrite Hp0 in Hc.
      pose proof (Hsep _ _ _ Hx Hc) as ->.
      by apply (Hne r y).
    - rewrite size_empty. unfold n. lia. }
  exists n, (dedupLoop L n true (dProposal d) c w1). split; [exact Hres|].
  intros fuel Hfuel. unfold resolveDuplicate. run. rewrite Hc. run.
  rewrite isDuplicateOf_run. run.
  rewrite Hsmc, bool_decide_eq_true_2 by (by rewrite Hd).
  cbn [negb andb].
  apply dedupLoop_mono; [|done].
  by apply (Resolved_ended L (dProposal d) w1).
Qed.

Lemma C6_resolution_terminates_witness :
  let w := Sample.world Accepted Sample.noFault Sample.noDeals
                        [Sample.cid0; Sample.cid1] in
  let w1 := snd (buildProposal "miner" Sample.small 0 3 w) in
  exists n out,
    Resolved Sample.library Sample.smallProposal w1 out /\
    forall fuel, (n ≤ fuel)%nat ->
      resolveDuplicate Sample.library fuel true Sample.smallProposal w1 = out.
Proof.
  intros w w1.
  apply (C6_resolution_terminates Sample.library "miner" Sample.small 0 3 w w1
           (MkDraft 5 10 7 "wallet" "owner" Sample.smallProposal)
           Sample.cid0 (Sample.dealOf Sample.cid0)).
  - vm_compute. reflexivity.
  - vm_compute. reflexivity.
  - vm_compute. reflexivity.
  - apply Sample_hash_separates.
  - apply Sample_text_injective.
  - apply Sample_text_nonempty.
Defined.

(** On the sample world, whose store holds the first two identities of the
    chain, the resolver settles on the third. *)
Example resolveDuplicate_sample :
  let w := Sample.world Accepted Sample.noFault Sample.noDeals
                        [Sample.cid0; Sample.cid1] in
  resolveDuplicate Sample.library 2 true Sample.smallProposal w =
  (Return (setLastDuplicate "zQmsmall/zQmsmall/" Sample.smallProposal,
           Sample.cid2), w).
Proof. vm_compute. reflexivity. Qed.

(** C7: how MakeProtocolRequest reports failures.  A stream that cannot be
    opened because the peer lacks the protocol gives the distinguished
    "Peer does not support protocol" error; any other failure to open gives
    the failure wrapped as "failed to establish connection with the peer";
    a failed write gives it wrapped as "failed to write request" and a
    failed read gives it wrapped as "failed to read response". *)
Theorem C7_exchange_errors (cni : ClientNodeImpl.t) (protocol : ProtocolID)
    (peer : PeerID) (request : Request) :
  let out := ClientNodeImpl.MakeProtocolRequest cni protocol peer request in
  let opened := NewStream (ClientNodeImpl.host cni) peer protocol in
  (opened = Err ErrNotSupported ->
   out = Err (New "could not establish connection with peer. Peer does not support protocol")) /\
  (forall e, opened = Err e -> e <> ErrNotSupported ->
   out = Err (Wrap e "failed to establish connection with the peer") /\
   Error (Wrap e "failed to establish connection with the peer")
     = "failed to establish connection with the peer: " +:+ Error e) /\
  (forall s e, opened = Ok s -> WriteMsg s request = Some e ->
   out = Err (Wrap e "failed to write request")) /\
  (forall s e, opened = Ok s -> WriteMsg s request = None ->
   ReadMsg s = Err e ->
   out = Err (Wrap e "failed to read response")).
Proof.
  intros out opened. subst out opened.
  unfold ClientNodeImpl.MakeProtocolRequest.
  split; [|split; [|split]].
  - by intros ->.
  - intros e -> Hne. split; [|reflexivity]. by destruct e.
  - by intros s e -> ->.
  - by intros s e -> -> ->.
Qed.

Lemma C7_exchange_errors_witness :
  ClientNodeImpl.MakeProtocolRequest
    (Sample.hostWith (Err ErrNotSupported)) "/fil/storage/mk/1.0.0" "peer"
    (ReqProposal Sample.smallProposal)
  = Err (New "could not establish connection with peer. Peer does not support protocol")
  /\
  ClientNodeImpl.MakeProtocolRequest
    (Sample.hostWith (Err (New "dial backoff"))) "/fil/storage/mk/1.0.0" "peer"
    (ReqProposal Sample.smallProposal)
  = Err (Wrap (New "dial backoff") "failed to establish connection with the peer")
  /\
  ClientNodeImpl.MakeProtocolRequest
    (Sample.hostWith
       (Ok (MkStream (fun _ => Some (New "stream reset")) (Err (New "EOF")))))
    "/fil/storage/mk/1.0.0" "peer" (ReqProposal Sample.smallProposal)
  = Err (Wrap (New "stream reset") "failed to write request")
  /\
  ClientNodeImpl.MakeProtocolRequest
    (Sample.hostWith (Ok (MkStream (fun _ => None) (Err (New "EOF")))))
    "/fil/storage/mk/1.0.0" "peer" (ReqProposal Sample.smallProposal)
  = Err (Wrap (New "EOF") "failed to read response").
Proof.
  split; [|split; [|split]].
  - apply (C7_exchange_errors (Sample.hostWith (Err ErrNotSupported))).
    reflexivity.
  - apply (C7_exchange_errors (Sample.hostWith (Err (New "dial backoff"))));
      [reflexivity|discriminate].
  - eapply (C7_exchange_errors
              (Sample.hostWith
                 (Ok (MkStream (fun _ => Some (New "stream reset"))
                               (Err (New "EOF"))))));
      reflexivity.
  - eapply (C7_exchange_errors
              (Sample.hostWith (Ok (MkStream (fun _ => None) (Err (New "EOF"))))));
      reflexivity.
Defined.

(** C8: when recording inserts the deal in memory and the write to the
    persistent store then fails, the caller gets the failure wrapped in an
    error that says the in-memory deals differ from the persisted ones; the
    entry inserted in memory stays, and the persistent store is as it
    was. *)
Theorem C8_persistence_failure (L : Library) (resp : Response)
    (miner : Address) (p : Proposal) (c : Cid) (w : World)
    (datum : bytes) (e : error) :
  deals (smc w) !! c = None ->
  DumpObject L (MkDeal miner p resp) = Ok datum ->
  putFault (dealsDs (smc w)) (dealKey L c) = Some e ->
  let out := recordResponse L resp miner p c w in
  fst out =
    Fail (Wrap e "could not save client deal to disk, in-memory deals differ from persisted deals!") /\
  deals (smc (snd out)) !! c = Some (MkDeal miner p resp) /\
  dealsDs (smc (snd out)) = dealsDs (smc w).
Proof.
  intros Hfresh Hdump Hput out. subst out.
  rewrite recordResponse_fresh by done.
  rewrite Hdump, Hput. cbn [fst snd smc deals dealsDs].
  split; [reflexivity|]. split; [|reflexivity].
  apply lookup_insert_eq.
Qed.

Lemma C8_persistence_failure_witness :
  let w := Sample.world Accepted Sample.diskFull Sample.noDeals [] in
  let resp := MkResponse Accepted "" Sample.cid0 in
  let out := recordResponse Sample.library resp "miner" Sample.smallProposal
                            Sample.cid0 w in
  fst out =
    Fail (Wrap (New "disk full") "could not save client deal to disk, in-memory deals differ from persisted deals!") /\
  deals (smc (snd out)) !! Sample.cid0
    = Some (MkDeal "miner" Sample.smallProposal resp) /\
  dealsDs (smc (snd out)) = dealsDs (smc w).
Proof.
  intros w resp.
  apply (C8_persistence_failure Sample.library resp "miner"
           Sample.smallProposal Sample.cid0 w "Qmsmall/" (New "disk full")).
  - vm_compute. reflexivity.
  - vm_compute. reflexivity.
  - vm_compute. reflexivity.
Defined.

(** C9: QueryDeal leaves the deal store alone.  Whatever it returns, the
    client after the call is the client before it: the same in-memory map
    and the same persistent store. *)
Theorem C9_QueryDeal_frame (L : Library) (proposalCid : Cid) (w : World) :
  let w' := snd (QueryDeal L proposalCid w) in
  deals (smc w') = deals (smc w) /\
  dealsDs (smc w') = dealsDs (smc w).
Proof. intros w'. subst w'. by rewrite QueryDeal_frame. Qed.

(** C10: a query for an identity that the deal store does not hold fails
    with "no such proposal by cid" and makes no call at all: the log of
    calls is unchanged, so neither MinerGetPeerID nor MakeProtocolRequest
    was invoked. *)
Theorem C10_QueryDeal_unknown (L : Library) (proposalCid : Cid) (w : World) :
  deals (smc w) !! proposalCid = None ->
  QueryDeal L proposalCid w =
  (Fail (New ("no such proposal by cid: " +:+ CidString L proposalCid)), w).
Proof.
  intros H. unfold QueryDeal, minerForProposal. run. rewrite H. by run.
Qed.

Lemma C10_QueryDeal_unknown_witness :
  let w := Sample.world Accepted Sample.noFault Sample.noDeals [Sample.cid0] in
  QueryDeal Sample.library Sample.cid1 w =
  (Fail (New ("no such proposal by cid: "
              +:+ CidString Sample.library Sample.cid1)), w).
Proof.
  intros w. apply (C10_QueryDeal_unknown Sample.library Sample.cid1 w).
  vm_compute. reflexivity.
Defined.

(** * Further properties of the client *)

(** ** How the phases of ProposeDeal run *)

(** The builder reads the collaborators only: two clients with the same
    node and API build the same draft. *)
Lemma buildProposal_same (miner : Address) (data : Cid) (askID duration : Z)
    (w w' : World) :
  node (smc w) = node (smc w') ->
  api (smc w) = api (smc w') ->
  fst (buildProposal miner data askID duration w)
  = fst (buildProposal miner data askID duration w').
Proof.
  intros Hn Ha. unfold buildProposal. run. rewrite Hn.
  destruct (GetFileSize _ _); run; [|reflexivity].
  rewrite Ha.
  destruct (MinerGetAsk _ _ _); run; [|reflexivity].
  rewrite ?Ha.
  destruct (ChainBlockHeight _); run; [|reflexivity].
  rewrite ?Ha.
  destruct (ConfigGet _ _) as [[from|v]|]; [destruct (Empty from)| |]; run;
    try reflexivity.
  rewrite ?Ha.
  destruct (MinerGetOwnerAddress _ _); run; reflexivity.
Qed.

Lemma setLastDuplicate_same (p : Proposal) :
  setLastDuplicate (LastDuplicate p) p = p.
Proof. by destruct p. Qed.

(** The loop changes nothing of a proposal but [LastDuplicate], and hands
    back the identity of the proposal it hands back. *)
Lemma dedupLoop_shape (L : Library) (fuel : nat) :
  forall (b : bool) (p : Proposal) (c : Cid) (w w' : World) p' c',
    ToCid L p = Ok c ->
    dedupLoop L fuel b p c w = (Return (p', c'), w') ->
    (exists ld, p' = setLastDuplicate ld p) /\ ToCid L p' = Ok c'.
Proof.
  induction fuel as [|fuel IH]; intros b p c w w' p' c' Hc.
  - destruct b; [intros [=]|].
    rewrite dedupLoop_done. intros [= <- <- <-].
    split; [|done]. exists (LastDuplicate p). by rewrite setLastDuplicate_same.
  - destruct b.
    + rewrite dedupLoop_step.
      destruct (ToCid L (setLastDuplicate (CidString L c) p)) as [c1|e] eqn:Hc1;
        [|intros [=]].
      intros H. apply IH in H as [[ld ->] H]; [|done].
      split; [|done]. by exists ld.
    + rewrite dedupLoop_done. intros [= <- <- <-].
      split; [|done]. exists (LastDuplicate p). by rewrite setLastDuplicate_same.
Qed.

Lemma resolveDuplicate_shape (L : Library) (fuel : nat)
    (allowDuplicates : bool) (p : Proposal) (w w' : World) p' c' :
  resolveDuplicate L fuel allowDuplicates p w = (Return (p', c'), w') ->
  (exists ld, p' = setLastDuplicate ld p) /\ ToCid L p' = Ok c'.
Proof.
  unfold resolveDuplicate. run.
  destruct (ToCid L p) as [c|e] eqn:Hc; run; [|intros [=]].
  rewrite isDuplicateOf_run; run.
  destruct (bool_decide _ && negb allowDuplicates); [intros [=]|].
  by apply dedupLoop_shape.
Qed.

(** Without leave to duplicate, the resolver does not loop. *)
Lemma resolveDuplicate_strict (L : Library) (fuel : nat) (p : Proposal)
    (w : World) :
  resolveDuplicate L fuel false p w =
  match ToCid L p with
  | Err e => (Fail (Wrap e "failed to get cid of proposal"), w)
  | Ok c =>
      if bool_decide (is_Some (deals (smc w) !! c))
      then (Fail ErrDuplicateDeal, w)
      else (Return (p, c), w)
  end.
Proof.
  unfold resolveDuplicate. run.
  destruct (ToCid L p) as [c|e]; run; [|reflexivity].
  rewrite isDuplicateOf_run; run.
  destruct (bool_decide _); cbn [andb negb]; [reflexivity|].
  apply dedupLoop_done.
Qed.

Lemma fundAndSend_run (L : Library) (d : Draft) (miner : Address)
    (duration : Z) (p : Proposal) (w : World) :
  let params := paymentParams d duration in
  fundAndSend L d miner duration p w =
  match CreatePayments (api (smc w)) params with
  | Err e =>
      (Fail e, MkWorld (smc w) (calls w ++ [CallCreatePayments params]))
  | Ok cp =>
      let p' :=
        setPayment (MkPaymentInfo (CPChannel cp)
                                  (CidString L (CPChannelMsgCid cp))
                                  (CPVouchers cp)) p in
      match MinerGetPeerID (api (smc w)) miner with
      | Err e =>
          (Fail e,
           MkWorld (smc w)
                   (calls w ++ [CallCreatePayments params;
                                CallMinerGetPeerID miner]))
      | Ok pid =>
          let sent :=
            calls w ++ [CallCreatePayments params; CallMinerGetPeerID miner;
                        CallMakeProtocolRequest (makeDealProtocol L) pid
                                                (ReqProposal p')] in
          match MakeProtocolRequest (node (smc w)) (makeDealProtocol L) pid
                                    (ReqProposal p') with
          | Err e => (Fail (Wrap e "error sending proposal"),
                      MkWorld (smc w) sent)
          | Ok r => (Return (p', r), MkWorld (smc w) sent)
          end
      end
  end.
Proof.
  intros params. unfold fundAndSend. fold params. run.
  destruct (CreatePayments _ _) as [cp|e]; run; [|reflexivity].
  destruct (MinerGetPeerID _ _) as [pid|e]; run;
    [|by rewrite <- !app_assoc].
  destruct (MakeProtocolRequest _ _ _ _) as [r|e]; run;
    by rewrite <- !app_assoc.
Qed.

Lemma negotiate_run (L : Library) (fuel : nat) (miner : Address) (data : Cid)
    (askID duration : Z) (allowDuplicates : bool) (w w1 : World)
    (d : Draft) (p : Proposal) (c : Cid) :
  buildProposal miner data askID duration w = (Return d, w1) ->
  resolveDuplicate L fuel allowDuplicates (dProposal d) w1
    = (Return (p, c), w1) ->
  negotiate L fuel miner data askID duration allowDuplicates w =
  match fundAndSend L d miner duration p w1 with
  | (Return (p', r), w2) => (Return (p', c, r), w2)
  | (Fail e, w2) => (Fail e, w2)
  | (OutOfFuel, w2) => (OutOfFuel, w2)
  end.
Proof.
  intros Hb Hr. unfold negotiate. rewrite bind_run, Hb, bind_run, Hr.
  rewrite bind_run.
  destruct (fundAndSend L d miner duration p w1) as [[[p' r]|e|] w2]; run;
    reflexivity.
Qed.

(** What a run of [negotiate] that got a response went through. *)
Lemma negotiate_success_inv (L : Library) (fuel : nat) (miner : Address)
    (data : Cid) (askID duration : Z) (allowDuplicates : bool)
    (w w2 : World) (p' : Proposal) (c : Cid) (r : Response) :
  negotiate L fuel miner data askID duration allowDuplicates w
    = (Return (p', c, r), w2) ->
  exists d w1 p,
    buildProposal miner data askID duration w = (Return d, w1) /\
    resolveDuplicate L fuel allowDuplicates (dProposal d) w1
      = (Return (p, c), w1) /\
    fundAndSend L d miner duration p w1 = (Return (p', r), w2).
Proof.
  unfold negotiate. rewrite bind_run.
  destruct (buildProposal miner data askID duration w) as [[d|e|] w1] eqn:Hb;
    [|intros [=]..].
  rewrite bind_run.
  destruct (resolveDuplicate L fuel allowDuplicates (dProposal d) w1)
    as [[[p c0]|e|] wr] eqn:Hr; [|intros [=]..].
  pose proof (resolveDuplicate_sound _ _ _ _ _ _ _ Hr) as [-> _].
  rewrite bind_run.
  destruct (fundAndSend L d miner duration p w1) as [[[q r0]|e|] wf] eqn:Hf;
    run; intros [= <- <- <- <-].
  by exists d, w1, p.
Qed.

Lemma ProposeDeal_success_inv (L : Library) (fuel : nat) (miner : Address)
    (data : Cid) (askID duration : Z) (allowDuplicates : bool)
    (w w' : World) (r : Response) :
  ProposeDeal L fuel miner data askID duration allowDuplicates w
    = (Return r, w') ->
  exists p c w1,
    negotiate L fuel miner data askID duration allowDuplicates w
      = (Return (p, c, r), w1) /\
    checkDealResponse L r = None /\
    recordResponse L r miner p c w1 = (Return tt, w').
Proof.
  intros H.
  destruct (negotiate L fuel miner data askID duration allowDuplicates w)
    as [[[[p c] r0]|e|] w1] eqn:Hn.
  - rewrite (ProposeDeal_after_exchange _ _ _ _ _ _ _ _ _ _ _ _ Hn) in H.
    destruct (checkDealResponse L r0) as [e|] eqn:Hck; [by inversion H|].
    destruct (recordResponse L r0 miner p c w1) as [[[]|e|] w2] eqn:Hrec;
      inversion H; subst.
    by exists p, c, w1.
  - unfold ProposeDeal in H. rewrite bind_run, Hn in H. inversion H.
  - unfold ProposeDeal in H. rewrite bind_run, Hn in H. inversion H.
Qed.

Lemma ProposeDeal_build_failure (L : Library) (fuel : nat) (miner : Address)
    (data : Cid) (askID duration : Z) (allowDuplicates : bool)
    (w w1 : World) (e : error) :
  buildProposal miner data askID duration w = (Fail e, w1) ->
  ProposeDeal L fuel miner data askID duration allowDuplicates w
  = (Fail e, w1).
Proof.
  intros Hb. unfold ProposeDeal, negotiate. by rewrite !bind_run, Hb.
Qed.

Lemma ProposeDeal_exchange_failure (L : Library) (fuel : nat)
    (miner : Address) (data : Cid) (askID duration : Z)
    (allowDuplicates : bool) (w w1 w2 : World) (d : Draft) (p : Proposal)
    (c : Cid) (e : error) :
  buildProposal miner data askID duration w = (Return d, w1) ->
  resolveDuplicate L fuel allowDuplicates (dProposal d) w1
    = (Return (p, c), w1) ->
  fundAndSend L d miner duration p w1 = (Fail e, w2) ->
  ProposeDeal L fuel miner data askID duration allowDuplicates w
  = (Fail e, w2).
Proof.
  intros Hb Hr Hf. unfold ProposeDeal.
  by rewrite bind_run, (negotiate_run _ _ _ _ _ _ _ _ _ _ _ _ Hb Hr), Hf.
Qed.

(** ** Failures of the look-ups *)

(** A failure to size the data or to fetch the ask ends ProposeDeal with
    that failure wrapped under the name of the step; nothing after the
    failing call is called, and the client is unchanged. *)
Theorem ProposeDeal_lookup_failures (L : Library) (fuel : nat)
    (miner : Address) (data : Cid) (askID duration : Z)
    (allowDuplicates : bool) (w : World) :
  let out := ProposeDeal L fuel miner data askID duration allowDuplicates w in
  (forall e,
     GetFileSize (node (smc w)) data = Err e ->
     out = (Fail (Wrap e "failed to determine the size of the data"),
            MkWorld (smc w) (calls w ++ [CallGetFileSize data]))) /\
  (forall size e,
     GetFileSize (node (smc w)) data = Ok size ->
     MinerGetAsk (api (smc w)) miner askID = Err e ->
     out = (Fail (Wrap e "failed to get ask price"),
            MkWorld (smc w)
                    (calls w ++ [CallGetFileSize data;
                                 CallMinerGetAsk miner askID]))).
Proof.
  intros out. subst out. split.
  - intros e Hsize. apply ProposeDeal_build_failure.
    unfold buildProposal. run. rewrite Hsize. by run.
  - intros size e Hsize Hask. apply ProposeDeal_build_failure.
    unfold buildProposal. run. rewrite Hsize. run. rewrite Hask. run.
    by rewrite <- !app_assoc.
Qed.

Lemma ProposeDeal_lookup_failures_witness :
  let w1 := Faulty.world (Faulty.nodeWith Faulty.goodSend)
              (Faulty.apiWith Faulty.goodAsk Faulty.goodCfg Faulty.goodPay
                              Faulty.goodPeer Sample.noDeals) [] in
  let w2 := Faulty.world (Faulty.nodeWith Faulty.goodSend)
              (Faulty.apiWith (Err (New "no such ask")) Faulty.goodCfg
                              Faulty.goodPay Faulty.goodPeer Sample.noDeals) [] in
  ProposeDeal Sample.library 0 "miner" (MkCid "lost") 0 3 false w1
  = (Fail (Wrap (New "not found") "failed to determine the size of the data"),
     MkWorld (smc w1) (calls w1 ++ [CallGetFileSize (MkCid "lost")]))
  /\
  ProposeDeal Sample.library 0 "miner" Sample.small 0 3 false w2
  = (Fail (Wrap (New "no such ask") "failed to get ask price"),
     MkWorld (smc w2)
             (calls w2 ++ [CallGetFileSize Sample.small;
                           CallMinerGetAsk "miner" 0])).
Proof.
  intros w1 w2. split.
  - apply (proj1 (ProposeDeal_lookup_failures Sample.library 0 "miner"
                    (MkCid "lost") 0 3 false w1)).
    vm_compute. reflexivity.
  - apply (proj2 (ProposeDeal_lookup_failures Sample.library 0 "miner"
                    Sample.small 0 3 false w2) 5).
    + vm_compute. reflexivity.
    + vm_compute. reflexivity.
Defined.

(** When the configured default wallet address is not an address, or is the
    empty address, ProposeDeal fails with "Default wallet address is not set
    correctly" right after reading the configuration: the owner of the miner
    is not looked up, nothing is paid and nothing is sent. *)
Theorem ProposeDeal_wallet_not_set (L : Library) (fuel : nat)
    (miner : Address) (data : Cid) (askID duration : Z)
    (allowDuplicates : bool) (w : World) (size : Z) (ask : Ask) (h : Z)
    (from : ConfigValue) :
  GetFileSize (node (smc w)) data = Ok size ->
  MinerGetAsk (api (smc w)) miner askID = Ok ask ->
  ChainBlockHeight (api (smc w)) = Ok h ->
  ConfigGet (api (smc w)) "wallet.defaultAddress" = Ok from ->
  (forall a, from = CfgAddress a -> a = "") ->
  ProposeDeal L fuel miner data askID duration allowDuplicates w
  = (Fail (New "Default wallet address is not set correctly"),
     MkWorld (smc w)
             (calls w ++ [CallGetFileSize data; CallMinerGetAsk miner askID;
                          CallChainBlockHeight;
                          CallConfigGet "wallet.defaultAddress"])).
Proof.
  intros Hsize Hask Hh Hcfg Hempty. apply ProposeDeal_build_failure.
  unfold buildProposal. run. rewrite Hsize. run. rewrite Hask. run.
  rewrite Hh. run. rewrite Hcfg. run.
  destruct from as [a|v].
  - rewrite (Hempty a eq_refl).
    assert (Empty "" = true) as -> by reflexivity.
    run. by rewrite <- !app_assoc.
  - run. by rewrite <- !app_assoc.
Qed.

Lemma ProposeDeal_wallet_not_set_witness :
  let w := Faulty.world (Faulty.nodeWith Faulty.goodSend)
             (Faulty.apiWith Faulty.goodAsk (Ok (CfgOther "t1abc"))
                             Faulty.goodPay Faulty.goodPeer Sample.noDeals) [] in
  ProposeDeal Sample.library 0 "miner" Sample.small 0 3 true w
  = (Fail (New "Default wallet address is not set correctly"),
     MkWorld (smc w)
             (calls w ++ [CallGetFileSize Sample.small; CallMinerGetAsk "miner" 0;
                          CallChainBlockHeight;
                          CallConfigGet "wallet.defaultAddress"])).
Proof.
  intros w.
  apply (ProposeDeal_wallet_not_set Sample.library 0 "miner" Sample.small 0 3
           true w 5 (MkAsk 10 0) 7 (CfgOther "t1abc")).
  - vm_compute. reflexivity.
  - vm_compute. reflexivity.
  - vm_compute. reflexivity.
  - vm_compute. reflexivity.
  - intros a. discriminate.
Defined.

(** ** Failures of the payment and of the exchange *)

(** When CreatePayments fails, ProposeDeal returns that failure as it is;
    CreatePayments is the last call made (no peer is looked up, nothing is
    sent) and the client is unchanged. *)
Theorem ProposeDeal_payment_failure (L : Library) (fuel : nat)
    (miner : Address) (data : Cid) (askID duration : Z)
    (allowDuplicates : bool) (w w1 : World) (d : Draft) (p : Proposal)
    (c : Cid) (e : error) :
  buildProposal miner data askID duration w = (Return d, w1) ->
  resolveDuplicate L fuel allowDuplicates (dProposal d) w1
    = (Return (p, c), w1) ->
  CreatePayments (api (smc w)) (paymentParams d duration) = Err e ->
  ProposeDeal L fuel miner data askID duration allowDuplicates w
  = (Fail e,
     MkWorld (smc w)
             (calls w1 ++ [CallCreatePayments (paymentParams d duration)])).
Proof.
  intros Hb Hr Hpay.
  pose proof (buildProposal_inv _ _ _ _ _ _ _ Hb) as (Hsmc & _).
  apply (ProposeDeal_exchange_failure _ _ _ _ _ _ _ _ _ _ _ _ _ _ Hb Hr).
  rewrite fundAndSend_run. cbn zeta. by rewrite Hsmc, Hpay.
Qed.

Lemma ProposeDeal_payment_failure_witness :
  let w := Faulty.world (Faulty.nodeWith Faulty.goodSend)
             (Faulty.apiWith Faulty.goodAsk Faulty.goodCfg
                             (Err (New "insufficient funds"))
                             Faulty.goodPeer Sample.noDeals) [] in
  let w1 := snd (buildProposal "miner" Sample.small 0 3 w) in
  ProposeDeal Sample.library 0 "miner" Sample.small 0 3 false w
  = (Fail (New "insufficient funds"),
     MkWorld (smc w)
             (calls w1 ++ [CallCreatePayments
                             (paymentParams Faulty.smallDraft 3)])).
Proof.
  intros w w1.
  apply (ProposeDeal_payment_failure Sample.library 0 "miner" Sample.small 0 3
           false w w1 Faulty.smallDraft Sample.smallProposal Sample.cid0).
  - vm_compute. reflexivity.
  - vm_compute. reflexivity.
  - vm_compute. reflexivity.
Defined.

(** When the request to the miner fails, ProposeDeal returns the failure
    wrapped as "error sending proposal" and records nothing; by then the
    payment has been made: the call to CreatePayments is in the log. *)
Theorem ProposeDeal_send_failure (L : Library) (fuel : nat)
    (miner : Address) (data : Cid) (askID duration : Z)
    (allowDuplicates : bool) (w w1 : World) (d : Draft) (p : Proposal)
    (c : Cid) (cp : CreatePaymentsReturn) (pid : PeerID) (e : error) :
  buildProposal miner data askID duration w = (Return d, w1) ->
  resolveDuplicate L fuel allowDuplicates (dProposal d) w1
    = (Return (p, c), w1) ->
  CreatePayments (api (smc w)) (paymentParams d duration) = Ok cp ->
  MinerGetPeerID (api (smc w)) miner = Ok pid ->
  let sent :=
    ReqProposal
      (setPayment (MkPaymentInfo (CPChannel cp)
                                 (CidString L (CPChannelMsgCid cp))
                                 (CPVouchers cp)) p) in
  MakeProtocolRequest (node (smc w)) (makeDealProtocol L) pid sent = Err e ->
  ProposeDeal L fuel miner data askID duration allowDuplicates w
  = (Fail (Wrap e "error sending proposal"),
     MkWorld (smc w)
             (calls w1 ++ [CallCreatePayments (paymentParams d duration);
                           CallMinerGetPeerID miner;
                           CallMakeProtocolRequest (makeDealProtocol L) pid
                                                   sent])).
Proof.
  intros Hb Hr Hpay Hpid sent Hsend.
  pose proof (buildProposal_inv _ _ _ _ _ _ _ Hb) as (Hsmc & _).
  apply (ProposeDeal_exchange_failure _ _ _ _ _ _ _ _ _ _ _ _ _ _ Hb Hr).
  rewrite fundAndSend_run. cbn zeta. rewrite Hsmc, Hpay, Hpid.
  fold sent. by rewrite Hsend.
Qed.

Lemma ProposeDeal_send_failure_witness :
  let w := Faulty.world (Faulty.nodeWith (Err (New "stream reset")))
             (Faulty.apiWith Faulty.goodAsk Faulty.goodCfg Faulty.goodPay
                             Faulty.goodPeer Sample.noDeals) [] in
  let w1 := snd (buildProposal "miner" Sample.small 0 3 w) in
  ProposeDeal Sample.library 0 "miner" Sample.small 0 3 false w
  = (Fail (Wrap (New "stream reset") "error sending proposal"),
     MkWorld (smc w)
             (calls w1 ++ [CallCreatePayments (paymentParams Faulty.smallDraft 3);
                           CallMinerGetPeerID "miner";
                           CallMakeProtocolRequest "/fil/storage/mk/1.0.0" "peer"
                             (ReqProposal Faulty.fundedProposal)])).
Proof.
  intros w w1.
  apply (ProposeDeal_send_failure Sample.library 0 "miner" Sample.small 0 3
           false w w1 Faulty.smallDraft Sample.smallProposal Sample.cid0
           (MkCreatePaymentsReturn 1 (MkCid "msg") ["v1"]) "peer").
  - vm_compute. reflexivity.
  - vm_compute. reflexivity.
  - vm_compute. reflexivity.
  - vm_compute. reflexivity.
  - vm_compute. reflexivity.
Defined.

(** ProposeDeal through a [ClientNodeImpl] whose host finds that the peer
    lacks the deal protocol: the call fails with the "Peer does not support
    protocol" error wrapped as "error sending proposal", and the client is
    unchanged. *)
Theorem ProposeDeal_peer_without_protocol (L : Library) (fuel : nat)
    (miner : Address) (data : Cid) (askID duration : Z)
    (allowDuplicates : bool) (w w1 : World) (d : Draft) (p : Proposal)
    (c : Cid) (cp : CreatePaymentsReturn) (pid : PeerID)
    (cni : ClientNodeImpl.t) :
  node (smc w) = ClientNodeImpl.asClientNode cni ->
  buildProposal miner data askID duration w = (Return d, w1) ->
  resolveDuplicate L fuel allowDuplicates (dProposal d) w1
    = (Return (p, c), w1) ->
  CreatePayments (api (smc w)) (paymentParams d duration) = Ok cp ->
  MinerGetPeerID (api (smc w)) miner = Ok pid ->
  NewStream (ClientNodeImpl.host cni) pid (makeDealProtocol L)
    = Err ErrNotSupported ->
  let out := ProposeDeal L fuel miner data askID duration allowDuplicates w in
  fst out =
    Fail (Wrap (New "could not establish connection with peer. Peer does not support protocol")
               "error sending proposal") /\
  smc (snd out) = smc w.
Proof.
  intros Hnode Hb Hr Hpay Hpid Hopen out. subst out.
  pose proof (buildProposal_inv _ _ _ _ _ _ _ Hb) as (Hsmc & _).
  erewrite ProposeDeal_exchange_failure; [|exact Hb|exact Hr|].
  2:{ rewrite fundAndSend_run. cbn zeta. rewrite Hsmc, Hpay, Hpid, Hnode.
      cbn [ClientNodeImpl.asClientNode MakeProtocolRequest].
      unfold ClientNodeImpl.MakeProtocolRequest. rewrite Hopen.
      reflexivity. }
  done.
Qed.

Lemma ProposeDeal_peer_without_protocol_witness :
  let w := Faulty.world
             (ClientNodeImpl.asClientNode (Sample.hostWith (Err ErrNotSupported)))
             (Faulty.apiWith Faulty.goodAsk Faulty.goodCfg Faulty.goodPay
                             Faulty.goodPeer Sample.noDeals) [] in
  let out := ProposeDeal Sample.library 0 "miner" Sample.small 0 3 false w in
  fst out =
    Fail (Wrap (New "could not establish connection with peer. Peer does not support protocol")
               "error sending proposal") /\
  smc (snd out) = smc w.
Proof.
  intros w.
  apply (ProposeDeal_peer_without_protocol Sample.library 0 "miner"
           Sample.small 0 3 false w
           (snd (buildProposal "miner" Sample.small 0 3 w))
           Faulty.smallDraft Sample.smallProposal Sample.cid0
           (MkCreatePaymentsReturn 1 (MkCid "msg") ["v1"]) "peer"
           (Sample.hostWith (Err ErrNotSupported))).
  - reflexivity.
  - vm_compute. reflexivity.
  - vm_compute. reflexivity.
  - vm_compute. reflexivity.
  - vm_compute. reflexivity.
  - vm_compute. reflexivity.
Defined.

(** ** What a successful exchange and a successful ProposeDeal amount to *)

(** Whenever ProposeDeal gets a response, the proposal it sent carries the
    channel, the text of the funding message identity and the vouchers that
    CreatePayments returned, and its total price is the value the payment
    was created with; the payment comes first, then the look-up of the
    peer, then the request under the make-deal protocol. *)
Theorem negotiate_sends_what_it_funds (L : Library) (fuel : nat)
    (miner : Address) (data : Cid) (askID duration : Z)
    (allowDuplicates : bool) (w w2 : World) (p : Proposal) (c : Cid)
    (r : Response) :
  negotiate L fuel miner data askID duration allowDuplicates w
    = (Return (p, c, r), w2) ->
  exists d w1 cp pid,
    buildProposal miner data askID duration w = (Return d, w1) /\
    CreatePayments (api (smc w)) (paymentParams d duration) = Ok cp /\
    MinerGetPeerID (api (smc w)) miner = Ok pid /\
    MakeProtocolRequest (node (smc w)) (makeDealProtocol L) pid (ReqProposal p)
      = Ok r /\
    Payment p = MkPaymentInfo (CPChannel cp)
                              (CidString L (CPChannelMsgCid cp))
                              (CPVouchers cp) /\
    TotalPrice p = Value (paymentParams d duration) /\
    calls w2 = calls w1 ++ [CallCreatePayments (paymentParams d duration);
                            CallMinerGetPeerID miner;
                            CallMakeProtocolRequest (makeDealProtocol L) pid
                                                    (ReqProposal p)].
Proof.
  intros Hn.
  apply negotiate_success_inv in Hn as (d & w1 & p0 & Hb & Hr & Hf).
  pose proof (buildProposal_inv _ _ _ _ _ _ _ Hb) as (Hsmc & _ & Hshape & _).
  specialize (Hshape d eq_refl).
  apply resolveDuplicate_shape in Hr as [[ld ->] _].
  rewrite fundAndSend_run in Hf. cbn zeta in Hf. rewrite Hsmc in Hf.
  destruct (CreatePayments _ _) as [cp|e] eqn:Hpay; [|by inversion Hf].
  destruct (MinerGetPeerID _ _) as [pid|e] eqn:Hpid; [|by inversion Hf].
  destruct (MakeProtocolRequest _ _ _ _) as [r0|e] eqn:Hsend; [|by inversion Hf].
  inversion Hf; subst p r0 w2; clear Hf.
  exists d, w1, cp, pid. repeat split; try done.
  cbn. by rewrite Hshape.
Qed.

Lemma negotiate_sends_what_it_funds_witness :
  let w := Sample.world Accepted Sample.noFault Sample.noDeals [] in
  exists d w1 cp pid,
    buildProposal "miner" Sample.small 0 3 w = (Return d, w1) /\
    CreatePayments (api (smc w)) (paymentParams d 3) = Ok cp /\
    MinerGetPeerID (api (smc w)) "miner" = Ok pid /\
    MakeProtocolRequest (node (smc w)) (makeDealProtocol Sample.library) pid
                        (ReqProposal Faulty.fundedProposal)
      = Ok (MkResponse Accepted "no space left" Sample.cid0) /\
    Payment Faulty.fundedProposal
      = MkPaymentInfo (CPChannel cp)
                      (CidString Sample.library (CPChannelMsgCid cp))
                      (CPVouchers cp) /\
    TotalPrice Faulty.fundedProposal = Value (paymentParams d 3) /\
    calls (snd (negotiate Sample.library 0 "miner" Sample.small 0 3 false w))
      = calls w1 ++ [CallCreatePayments (paymentParams d 3);
                     CallMinerGetPeerID "miner";
                     CallMakeProtocolRequest (makeDealProtocol Sample.library)
                       pid (ReqProposal Faulty.fundedProposal)].
Proof.
  intros w.
  apply (negotiate_sends_what_it_funds Sample.library 0 "miner" Sample.small
           0 3 false w
           (snd (negotiate Sample.library 0 "miner" Sample.small 0 3 false w))
           Faulty.fundedProposal Sample.cid0
           (MkResponse Accepted "no space left" Sample.cid0)).
  vm_compute. reflexivity.
Defined.



(** ** Calling ProposeDeal again *)

Lemma recordResponse_collaborators (L : Library) (resp : Response)
    (miner : Address) (p : Proposal) (c : Cid) (w : World) :
  let w' := snd (recordResponse L resp miner p c w) in
  node (smc w') = node (smc w) /\ api (smc w') = api (smc w) /\
  fst (recordResponse L resp miner p c w) <> OutOfFuel.
Proof.
  destruct (deals (smc w) !! c) as [d0|] eqn:Hc.
  - by rewrite (recordResponse_known _ _ _ _ _ _ d0).
  - rewrite recordResponse_fresh by done. cbn zeta.
    by destruct (DumpObject L _); [destruct (putFault _ _)|].
Qed.

Lemma ProposeDeal_strict_duplicate (L : Library) (fuel : nat)
    (miner : Address) (data : Cid) (askID duration : Z) (w w1 : World)
    (d : Draft) (c : Cid) :
  buildProposal miner data askID duration w = (Return d, w1) ->
  ToCid L (dProposal d) = Ok c ->
  is_Some (deals (smc w) !! c) ->
  ProposeDeal L fuel miner data askID duration false w
  = (Fail ErrDuplicateDeal, w1).
Proof.
  intros Hb Hc Hd.
  pose proof (buildProposal_inv _ _ _ _ _ _ _ Hb) as (Hsmc & _).
  unfold ProposeDeal, negotiate. rewrite !bind_run, Hb, !bind_run.
  rewrite resolveDuplicate_strict, Hc, Hsmc.
  by rewrite bool_decide_eq_true_2.
Qed.

(** Proposing again what has just been accepted, without leave to
    duplicate and with collaborators that answer as before, fails with the
    duplicate error and leaves the client as the first call left it. *)
Theorem ProposeDeal_twice (L : Library) (fuel fuel' : nat) (miner : Address)
    (data : Cid) (askID duration : Z) (w w' : World) (r : Response) :
  ProposeDeal L fuel miner data askID duration false w = (Return r, w') ->
  let again := ProposeDeal L fuel' miner data askID duration false w' in
  fst again = Fail ErrDuplicateDeal /\ smc (snd again) = smc w'.
Proof.
  intros H again.
  apply ProposeDeal_success_inv in H as (p & c & w2 & Hn & _ & Hrec).
  pose proof (negotiate_inv _ _ _ _ _ _ _ _ _ _ Hn) as [Hsmc Hfresh].
  specialize (Hfresh p c r eq_refl).
  apply negotiate_success_inv in Hn as (d & w1 & p0 & Hb & Hr & _).
  rewrite resolveDuplicate_strict in Hr.
  destruct (ToCid L (dProposal d)) as [c0|e] eqn:Hc; [|by inversion Hr].
  destruct (bool_decide _); inversion Hr; subst p0 c0; clear Hr.
  pose proof (recordResponse_collaborators L r miner p c w2) as (Hnode & Hapi & _).
  rewrite Hrec in Hnode, Hapi. cbn [snd] in Hnode, Hapi.
  assert (deals (smc w') !! c = Some (MkDeal miner p r)) as Hin.
  { rewrite recordResponse_fresh in Hrec by (by rewrite Hsmc).
    cbn zeta in Hrec.
    destruct (DumpObject L _); [destruct (putFault _ _)|]; inversion Hrec;
      cbn; apply lookup_insert_eq. }
  destruct (buildProposal miner data askID duration w') as [rb wb] eqn:Hb'.
  assert (rb = Return d) as ->.
  { change rb with (fst (rb, wb)). rewrite <- Hb'.
    rewrite (buildProposal_same miner data askID duration w' w).
    - by rewrite Hb.
    - by rewrite Hnode, Hsmc.
    - by rewrite Hapi, Hsmc. }
  pose proof (buildProposal_inv _ _ _ _ _ _ _ Hb') as (Hsmc' & _).
  subst again.
  rewrite (ProposeDeal_strict_duplicate L fuel' miner data askID duration
             w' wb d c Hb' Hc) by (by rewrite Hin).
  done.
Qed.

Lemma ProposeDeal_twice_witness :
  let w := Sample.world Accepted Sample.noFault Sample.noDeals [] in
  let w' := snd (ProposeDeal Sample.library 0 "miner" Sample.small 0 3 false w) in
  let again := ProposeDeal Sample.library 0 "miner" Sample.small 0 3 false w' in
  fst again = Fail ErrDuplicateDeal /\ smc (snd again) = smc w'.
Proof.
  intros w w'.
  apply (ProposeDeal_twice Sample.library 0 0 "miner" Sample.small 0 3 w w'
           (MkResponse Accepted "no space left" Sample.cid0)).
  vm_compute. reflexivity.
Defined.

(** Without leave to duplicate, ProposeDeal never enters the resolution
    loop: it comes to an end and its result does not depend on the bound of
    the model. *)
Theorem ProposeDeal_strict_terminates (L : Library) (fuel fuel' : nat)
    (miner : Address) (data : Cid) (askID duration : Z) (w : World) :
  ProposeDeal L fuel miner data askID duration false w
  = ProposeDeal L fuel' miner data askID duration false w /\
  fst (ProposeDeal L fuel miner data askID duration false w) <> OutOfFuel.
Proof.
  unfold ProposeDeal, negotiate. rewrite !bind_run.
  destruct (buildProposal miner data askID duration w) as [rb w1] eqn:Hb.
  pose proof (buildProposal_inv _ _ _ _ _ _ _ Hb) as (_ & _ & _ & Hend).
  destruct rb as [d|e|]; [|done..].
  rewrite !bind_run, !resolveDuplicate_strict.
  split; [reflexivity|].
  destruct (ToCid L (dProposal d)) as [c|e]; [|done].
  destruct (bool_decide _); [done|].
  rewrite bind_run.
  destruct (fundAndSend L d miner duration (dProposal d) w1)
    as [rf w2] eqn:Hf.
  pose proof (fundAndSend_inv _ _ _ _ _ _ _ _ Hf) as [_ Hendf].
  destruct rf as [[p r]|e|]; [|done..].
  run. destruct (checkDealResponse L r); run; [done|].
  pose proof (recordResponse_collaborators L r miner p c w2) as (_ & _ & Hendr).
  destruct (recordResponse L r miner p c w2) as [[[]|e|] w3]; run; done.
Qed.

(** ** The store only grows, one entry at a time *)

(** An operation either leaves the in-memory map as it is or adds one
    entry under an identity that had none. *)
Theorem perform_adds_at_most_one (L : Library) (op : Operation) (w : World) :
  deals (smc (perform L op w)) = deals (smc w) \/
  exists c d,
    deals (smc w) !! c = None /\
    deals (smc (perform L op w)) = <[c := d]> (deals (smc w)).
Proof.
  destruct op as [fuel miner data askID duration allowDuplicates|q|v]; simpl.
  - destruct (negotiate L fuel miner data askID duration allowDuplicates w)
      as [rn w1] eqn:Hn.
    pose proof (negotiate_inv _ _ _ _ _ _ _ _ _ _ Hn) as [Hsmc Hfresh].
    destruct rn as [[[p c] r]|e|].
    + specialize (Hfresh p c r eq_refl).
      rewrite (ProposeDeal_after_exchange _ _ _ _ _ _ _ _ _ _ _ _ Hn).
      destruct (checkDealResponse L r); [left; simpl; by rewrite Hsmc|].
      right. exists c, (MkDeal miner p r). split; [done|].
      rewrite recordResponse_fresh by (by rewrite Hsmc). cbn zeta.
      rewrite Hsmc.
      by destruct (DumpObject L _); [destruct (putFault _ _)|].
    + left. unfold ProposeDeal. rewrite bind_run, Hn. simpl. by rewrite Hsmc.
    + left. unfold ProposeDeal. rewrite bind_run, Hn. simpl. by rewrite Hsmc.
  - left. by rewrite QueryDeal_frame.
  - left. by rewrite LoadVouchersForDeal_frame.
Qed.

(** ** Queries *)

(** A query for a recorded deal goes to the miner stored with the deal:
    its peer is looked up first; if that fails the failure is returned as
    it is and nothing is sent; otherwise the identity is sent under the
    query protocol, and the reply is returned, or the failure of the
    exchange wrapped as "error querying deal". *)
Theorem QueryDeal_known (L : Library) (c : Cid) (w : World) (d : Deal) :
  deals (smc w) !! c = Some d ->
  let lookup := CallMinerGetPeerID (Miner d) in
  let request pid :=
    CallMakeProtocolRequest (queryDealProtocol L) pid
                            (ReqQuery (MkQueryRequest c)) in
  QueryDeal L c w =
  match MinerGetPeerID (api (smc w)) (Miner d) with
  | Err e => (Fail e, MkWorld (smc w) (calls w ++ [lookup]))
  | Ok pid =>
      (match MakeProtocolRequest (node (smc w)) (queryDealProtocol L) pid
                                 (ReqQuery (MkQueryRequest c)) with
       | Ok r => Return r
       | Err e => Fail (Wrap e "error querying deal")
       end,
       MkWorld (smc w) (calls w ++ [lookup; request pid]))
  end.
Proof.
  intros Hd lookup request. unfold QueryDeal, minerForProposal. run.
  rewrite Hd. run.
  destruct (MinerGetPeerID _ _) as [pid|e]; run; [|reflexivity].
  destruct (MakeProtocolRequest _ _ _ _) as [r|e]; run;
    by rewrite <- !app_assoc.
Qed.

Lemma QueryDeal_known_witness :
  let w := Sample.world Rejected Sample.noFault Sample.noDeals [Sample.cid0] in
  QueryDeal Sample.library Sample.cid0 w =
  (Return (MkResponse Rejected "no space left" Sample.cid0),
   MkWorld (smc w)
           (calls w ++ [CallMinerGetPeerID "miner";
                        CallMakeProtocolRequest "/fil/storage/qry/1.0.0" "peer"
                          (ReqQuery (MkQueryRequest Sample.cid0))])).
Proof.
  intros w.
  apply (QueryDeal_known Sample.library Sample.cid0 w (Sample.dealOf Sample.cid0)).
  vm_compute. reflexivity.
Defined.

(** Once recordResponse has inserted a deal, the deal answers for its
    miner, whether or not it could be persisted. *)
Theorem recordResponse_then_minerForProposal (L : Library) (resp : Response)
    (miner : Address) (p : Proposal) (c : Cid) (w : World) :
  deals (smc w) !! c = None ->
  let w' := snd (recordResponse L resp miner p c w) in
  minerForProposal L c w' = (Return miner, w').
Proof.
  intros Hfresh w'. subst w'.
  rewrite recordResponse_fresh by done. cbn zeta.
  unfold minerForProposal. run.
  destruct (DumpObject L _); [destruct (putFault _ _)|];
    cbn [snd smc deals]; rewrite lookup_insert_eq; by run.
Qed.

Lemma recordResponse_then_minerForProposal_witness :
  let w := Sample.world Accepted Sample.diskFull Sample.noDeals [] in
  let w' := snd (recordResponse Sample.library
                   (MkResponse Accepted "" Sample.cid0) "miner"
                   Sample.smallProposal Sample.cid0 w) in
  minerForProposal Sample.library Sample.cid0 w' = (Return "miner", w').
Proof.
  intros w.
  apply (recordResponse_then_minerForProposal Sample.library
           (MkResponse Accepted "" Sample.cid0) "miner" Sample.smallProposal
           Sample.cid0 w).
  vm_compute. reflexivity.
Defined.

(** ** Persisting *)

(** When the deal cannot be serialized, recordResponse fails with the
    failure wrapped as "could not marshal storageDeal"; the deal is in the
    in-memory map all the same, and the persistent store was not written
    to. *)
Theorem recordResponse_marshal_failure (L : Library) (resp : Response)
    (miner : Address) (p : Proposal) (c : Cid) (w : World) (e : error) :
  deals (smc w) !! c = None ->
  DumpObject L (MkDeal miner p resp) = Err e ->
  let out := recordResponse L resp miner p c w in
  fst out = Fail (Wrap e "could not marshal storageDeal") /\
  deals (smc (snd out)) !! c = Some (MkDeal miner p resp) /\
  dealsDs (smc (snd out)) = dealsDs (smc w) /\
  calls (snd out) = calls w.
Proof.
  intros Hfresh Hdump out. subst out.
  rewrite recordResponse_fresh by done. cbn zeta. rewrite Hdump.
  cbn [fst snd smc deals dealsDs calls].
  by rewrite lookup_insert_eq.
Qed.

Lemma recordResponse_marshal_failure_witness :
  let w := Sample.world Accepted Sample.noFault Sample.noDeals [] in
  let resp := MkResponse Accepted "" Sample.cid0 in
  let out := recordResponse Faulty.noCodec resp "miner" Sample.smallProposal
                            Sample.cid0 w in
  fst out = Fail (Wrap (New "unsupported type") "could not marshal storageDeal") /\
  deals (smc (snd out)) !! Sample.cid0
    = Some (MkDeal "miner" Sample.smallProposal resp) /\
  dealsDs (smc (snd out)) = dealsDs (smc w) /\
  calls (snd out) = calls w.
Proof.
  intros w resp.
  apply (recordResponse_marshal_failure Faulty.noCodec resp "miner"
           Sample.smallProposal Sample.cid0 w (New "unsupported type")).
  - vm_compute. reflexivity.
  - reflexivity.
Defined.

(** ** Starting a client *)

(** With no deal to deliver, a new client starts with an empty map when
    the enumeration ends well, and is not created when it ends with an
    error, which is reported wrapped as "failed to load client deals". *)
Theorem NewClient_nothing_stored (nd : clientNode) (ap : clientPorcelainAPI)
    (ds : Datastore) :
  produced (DealsLs ap) = [] ->
  NewClient nd ap ds =
  (match termination (DealsLs ap) with
   | None => Return tt
   | Some e => Fail (Wrap e "failed to load client deals")
   end,
   MkWorld (MkClient ∅ ds nd ap) [CallDealsLs]).
Proof.
  intros H. unfold NewClient, loadDeals, setDeals, logCall. run.
  rewrite H. run. destruct (termination _); reflexivity.
Qed.

Lemma NewClient_nothing_stored_witness :
  NewClient (Sample.nodeWith Accepted)
            (Sample.apiWith (MkDealEnumeration [] (Some (New "corrupt entry"))))
            (Sample.store Sample.noFault)
  = (Fail (Wrap (New "corrupt entry") "failed to load client deals"),
     MkWorld (MkClient ∅ (Sample.store Sample.noFault)
                       (Sample.nodeWith Accepted)
                       (Sample.apiWith
                          (MkDealEnumeration [] (Some (New "corrupt entry")))))
             [CallDealsLs]).
Proof.
  apply (NewClient_nothing_stored (Sample.nodeWith Accepted)
           (Sample.apiWith (MkDealEnumeration [] (Some (New "corrupt entry"))))).
  reflexivity.
Defined.

(** When the enumeration has a deal to deliver, a new client holds the
    first one, under the proposal identity named in its response, and
    nothing else; whatever the enumeration would deliver after it, further
    deals or an error, is not seen. *)
Theorem NewClient_first_deal (nd : clientNode) (ap : clientPorcelainAPI)
    (ds : Datastore) (d : Deal) (rest : list Deal) :
  produced (DealsLs ap) = d :: rest ->
  NewClient nd ap ds =
  (Return tt,
   MkWorld (MkClient {[ProposalCid (DResponse d) := d]} ds nd ap)
           [CallDealsLs]).
Proof.
  intros H. unfold NewClient. rewrite wrapped_run.
  by rewrite (loadDeals_first d rest).
Qed.

Lemma NewClient_first_deal_witness :
  let enum := MkDealEnumeration [Sample.dealOf Sample.cid1]
                                (Some (New "corrupt entry")) in
  NewClient (Sample.nodeWith Accepted) (Sample.apiWith enum)
            (Sample.store Sample.noFault)
  = (Return tt,
     MkWorld (MkClient {[Sample.cid1 := Sample.dealOf Sample.cid1]}
                       (Sample.store Sample.noFault)
                       (Sample.nodeWith Accepted) (Sample.apiWith enum))
             [CallDealsLs]).
Proof.
  intros enum.
  apply (NewClient_first_deal (Sample.nodeWith Accepted) (Sample.apiWith enum)
           (Sample.store Sample.noFault) (Sample.dealOf Sample.cid1) []).
  reflexivity.
Defined.

(** ** Vouchers of a stored deal *)

(** LoadVouchersForDeal changes nothing of the client, and what it returns
    is either no voucher at all or the vouchers in the proposal of a stored
    deal whose response names the identity asked for. *)
Theorem LoadVouchersForDeal_sound (dealCid : Cid) (w w' : World)
    (vs : list PaymentVoucher) :
  LoadVouchersForDeal dealCid w = (Return vs, w') ->
  smc w' = smc w /\
  (vs = [] \/
   exists d, d ∈ produced (DealsLs (api (smc w))) /\
             ProposalCid (DResponse d) = dealCid /\
             vs = Vouchers (Payment (DProposal d))).
Proof.
  intros H. split.
  { change w' with (snd (Return vs, w')). rewrite <- H.
    apply LoadVouchersForDeal_frame. }
  revert H. unfold LoadVouchersForDeal, logCall. run.
  destruct (produced (DealsLs (api (smc w)))) as [|d rest] eqn:Hp.
  - run. destruct (termination _); run; intros [= <- _]; by left.
  - destruct (bool_decide_reflect (ProposalCid (DResponse d) = dealCid)); run;
      intros [= <- _]; [right|by left].
    exists d. split; [apply list_elem_of_here|done].
Qed.

Lemma LoadVouchersForDeal_sound_witness :
  let enum := MkDealEnumeration [Faulty.fundedDeal Sample.cid0] None in
  let w := Sample.world Accepted Sample.noFault enum [] in
  let w' := snd (LoadVouchersForDeal Sample.cid0 w) in
  smc w' = smc w /\
  (["v1"] = [] \/
   exists d, d ∈ produced (DealsLs (api (smc w))) /\
             ProposalCid (DResponse d) = Sample.cid0 /\
             ["v1"] = Vouchers (Payment (DProposal d))).
Proof.
  intros enum w w'.
  apply (LoadVouchersForDeal_sound Sample.cid0 w w' ["v1"]).
  vm_compute. reflexivity.
Defined.

(** ** The exchange *)

(** MakeProtocolRequest succeeds exactly when the stream opens, the
    request is written and a response is read; what it returns is the
    response read. *)
Theorem MakeProtocolRequest_succeeds_iff (cni : ClientNodeImpl.t)
    (protocol : ProtocolID) (peer : PeerID) (request : Request)
    (r : Response) :
  ClientNodeImpl.MakeProtocolRequest cni protocol peer request = Ok r <->
  exists s, NewStream (ClientNodeImpl.host cni) peer protocol = Ok s /\
            WriteMsg s request = None /\
            ReadMsg s = Ok r.
Proof.
  unfold ClientNodeImpl.MakeProtocolRequest. split.
  - destruct (NewStream _ _ _) as [s|e]; [|by destruct e].
    destruct (WriteMsg s request) eqn:Hw; [done|].
    destruct (ReadMsg s) eqn:Hr; [|done].
    intros [= ->]. by exists s.
  - intros (s & -> & -> & ->). reflexivity.
Qed.

Lemma MakeProtocolRequest_succeeds_iff_witness :
  let r := MkResponse Accepted "" Sample.cid0 in
  ClientNodeImpl.MakeProtocolRequest
    (Sample.hostWith (Ok (MkStream (fun _ => None) (Ok r))))
    "/fil/storage/mk/1.0.0" "peer" (ReqProposal Sample.smallProposal)
  = Ok r.
Proof.
  intros r.
  apply (proj2 (MakeProtocolRequest_succeeds_iff
                  (Sample.hostWith (Ok (MkStream (fun _ => None) (Ok r))))
                  "/fil/storage/mk/1.0.0" "peer"
                  (ReqProposal Sample.smallProposal) r)).
  eexists. split; [reflexivity|]. split; reflexivity.
Defined.

(** ** The expiry of the payment channel *)

(** For a duration that leaves room for the buffer within 64 bits, the
    payment is created with a channel that expires 2000 heights after the
    end of the deal, counted from the current height, every 1000 heights a
    voucher, at gas price 0 and gas limit 300. *)
Theorem paymentParams_expiry (d : Draft) (duration : Z) :
  0 <= duration < 2 ^ 64 - 2000 ->
  let params := paymentParams d duration in
  ChannelExpiry params = dChainHeight d + duration + 2000 /\
  PaymentInterval params = 1000 /\
  GasPrice params = 0 /\
  GasLimit params = 300 /\
  From params = dFromAddress d /\
  To params = dMinerOwner d.
Proof.
  intros H params. subst params.
  unfold paymentParams, BlockHeightAdd, uint64_add, uint64_modulus,
    ChannelExpiryBuffer; cbn.
  rewrite Z.mod_small by lia. repeat split; lia.
Qed.

Lemma paymentParams_expiry_witness :
  0 <= 3 < 2 ^ 64 - 2000 /\
  ChannelExpiry (paymentParams Faulty.smallDraft 3) = 7 + 3 + 2000.
Proof.
  split; [lia|].
  apply (paymentParams_expiry Faulty.smallDraft 3). lia.
Defined.

(** ** The flag that allows duplicates *)

(** When the identity of the built proposal is not in the store, leave to
    duplicate makes no difference: ProposeDeal does the same with the flag
    as without it. *)
Theorem ProposeDeal_flag_without_collision (L : Library) (fuel : nat)
    (miner : Address) (data : Cid) (askID duration : Z) (w w1 : World)
    (d : Draft) (c : Cid) :
  buildProposal miner data askID duration w = (Return d, w1) ->
  ToCid L (dProposal d) = Ok c ->
  deals (smc w) !! c = None ->
  ProposeDeal L fuel miner data askID duration true w
  = ProposeDeal L fuel miner data askID duration false w.
Proof.
  intros Hb Hc Hfresh.
  pose proof (buildProposal_inv _ _ _ _ _ _ _ Hb) as (Hsmc & _).
  assert (forall allow,
            resolveDuplicate L fuel allow (dProposal d) w1
            = (Return (dProposal d, c), w1)) as Hr.
  { intros allow. unfold resolveDuplicate. run. rewrite Hc. run.
    rewrite isDuplicateOf_run. run.
    rewrite Hsmc, Hfresh, bool_decide_eq_false_2 by (by intros [? ?]).
    cbn [andb]. apply dedupLoop_done. }
  unfold ProposeDeal. rewrite !bind_run.
  by rewrite (negotiate_run _ _ _ _ _ _ _ _ _ _ _ _ Hb (Hr true)),
             (negotiate_run _ _ _ _ _ _ _ _ _ _ _ _ Hb (Hr false)).
Qed.

Lemma ProposeDeal_flag_without_collision_witness :
  let w := Sample.world Accepted Sample.noFault Sample.noDeals [Sample.cid1] in
  ProposeDeal Sample.library 0 "miner" Sample.small 0 3 true w
  = ProposeDeal Sample.library 0 "miner" Sample.small 0 3 false w.
Proof.
  intros w.
  apply (ProposeDeal_flag_without_collision Sample.library 0 "miner"
           Sample.small 0 3 w (snd (buildProposal "miner" Sample.small 0 3 w))
           Faulty.smallDraft Sample.cid0).
  - vm_compute. reflexivity.
  - vm_compute. reflexivity.
  - vm_compute. reflexivity.
Defined.
